(** * VegaMCP FastAPI bridge: a shallow embedding of [vegamcp_bridge.py]

    The bridge turns one HTTP request into one JSON-RPC [tools/call]
    request, sent to a freshly spawned [node] process over its standard
    input, and turns the last line of the process's standard output back
    into the HTTP response.

    The development has four layers:
    - [Py]: the Python values the module manipulates ([str], [bytes],
      the values [json.loads] produces, exceptions) and the operations
      the source applies to them ([strip], [split], [dict.get], ...);
    - [Runtime], [OS], [World]: what the module takes from its
      libraries and from the operating system ([json], Starlette's
      [HTTPException], pydantic, [asyncio] subprocesses);
    - [Bridge]: [call_mcp_tool] and the route handlers, statement by
      statement;
    - [Ref]: one executable [Runtime] (CPython 3.11's [json], current
      Starlette), used to run the bridge on concrete replies. *)

From Stdlib Require Import List ZArith NArith QArith Bool Lia Ascii.
From Stdlib Require String.
Import ListNotations String.StringSyntax.
Close Scope Q_scope.

Set Implicit Arguments.
Set Warnings "-register-all".

(* ================================================================== *)
(** * Python values                                                    *)
(* ================================================================== *)

Module Py.

(** A Python [str] is a sequence of Unicode code points, a [bytes]
    object a sequence of octets. *)
Definition pystr := list N.
Definition bytes := list N.

(** An ASCII literal as a [str]. *)
Definition py (x : String.string) : pystr :=
  map N_of_ascii (String.list_ascii_of_string x).
Arguments py x%_string_scope.

Fixpoint pystr_eqb (a b : pystr) : bool :=
  match a, b with
  | [], [] => true
  | x :: a', y :: b' => N.eqb x y && pystr_eqb a' b'
  | _, _ => false
  end.

(** [str.isspace] on one code point (CPython's [_PyUnicode_IsWhitespace]);
    this is the set [str.strip()] removes. *)
Definition isspace (c : N) : bool :=
  (((0x09 <=? c) && (c <=? 0x0d)) || ((0x1c <=? c) && (c <=? 0x20))
   || (c =? 0x85) || (c =? 0xa0) || (c =? 0x1680)
   || ((0x2000 <=? c) && (c <=? 0x200a))
   || (c =? 0x2028) || (c =? 0x2029) || (c =? 0x202f) || (c =? 0x205f)
   || (c =? 0x3000))%N.

Fixpoint lstrip (x : pystr) : pystr :=
  match x with
  | c :: r => if isspace c then lstrip r else x
  | [] => []
  end.

Fixpoint rstrip (x : pystr) : pystr :=
  match x with
  | c :: r =>
      match rstrip r with
      | [] => if isspace c then [] else [c]
      | r' => c :: r'
      end
  | [] => []
  end.

(** [x.strip()] *)
Definition strip (x : pystr) : pystr := lstrip (rstrip x).

(** [x.split(sep)] for a one-character separator: never empty, keeps
    empty segments. *)
Fixpoint split (sep : N) (x : pystr) : list pystr :=
  match x with
  | [] => [[]]
  | c :: r =>
      if N.eqb c sep then [] :: split sep r
      else match split sep r with
           | h :: t => (c :: h) :: t
           | [] => [[c]]
           end
  end.

(** [sep.join(parts)] *)
Fixpoint join (sep : pystr) (parts : list pystr) : pystr :=
  match parts with
  | [] => []
  | [p] => p
  | p :: rest => p ++ sep ++ join sep rest
  end.

(** A Python [float], kept as the decimal numeral it was read from:
    [FDec neg m e] is the binary64 nearest to [(-1)^neg * m * 10^e]. *)
Inductive pyfloat :=
| FDec (neg : bool) (m : N) (e : Z)
| FInf (neg : bool)
| FNaN.

(** The values [json.loads] produces. A [dict] keeps insertion order
    and has string keys. *)
Inductive value :=
| JNull
| JBool (b : bool)
| JNum (n : Z)
| JFloat (f : pyfloat)
| JStr (x : pystr)
| JArray (l : list value)
| JObject (d : list (pystr * value)).

Definition dict := list (pystr * value).

(** [key in d] and [d[key]] / [d.get(key)] *)
Fixpoint lookup (key : pystr) (d : dict) : option value :=
  match d with
  | [] => None
  | (k, v) :: r => if pystr_eqb k key then Some v else lookup key r
  end.

(** [d[key] = v]: overwrite in place, or append. *)
Fixpoint setitem (d : dict) (key : pystr) (v : value) : dict :=
  match d with
  | [] => [(key, v)]
  | (k, v0) :: r =>
      if pystr_eqb k key then (k, v) :: r else (k, v0) :: setitem r key v
  end.

Definition type_name (v : value) : pystr :=
  match v with
  | JNull => py "NoneType"
  | JBool _ => py "bool"
  | JNum _ => py "int"
  | JFloat _ => py "float"
  | JStr _ => py "str"
  | JArray _ => py "list"
  | JObject _ => py "dict"
  end.

(** [float(m * 10^e) == 0.0]: the numeral is zero, or it lies at or
    below half of the least subnormal, [2^-1075], and rounds to zero. *)
Definition float_is_zero (f : pyfloat) : bool :=
  match f with
  | FDec _ m e =>
      (m =? 0)%N
      || (if (e <? 0)%Z
          then (Z.of_N m * 2 ^ 1075 <=? 10 ^ (- e))%Z
          else false)
  | _ => false
  end.

(** [math.isfinite(f)]: the numeral rounds to a finite binary64, that
    is, it lies below [2^1024 - 2^970], halfway between the largest
    finite binary64 and [2^1024]. *)
Definition float_is_finite (f : pyfloat) : bool :=
  match f with
  | FDec _ m e =>
      if (e <? 0)%Z
      then (Z.of_N m <? (2 ^ 1024 - 2 ^ 970) * 10 ^ (- e))%Z
      else (Z.of_N m * 10 ^ e <? 2 ^ 1024 - 2 ^ 970)%Z
  | _ => false
  end.

(** [json.dumps(v, allow_nan=False)] does not raise: no float in [v]
    is an infinity or a NaN. *)
Fixpoint json_compliant (v : value) : bool :=
  match v with
  | JFloat f => float_is_finite f
  | JArray l => forallb json_compliant l
  | JObject d => forallb (fun kv => json_compliant (snd kv)) d
  | _ => true
  end.

(** [bool(v)] *)
Definition truthy (v : value) : bool :=
  match v with
  | JNull => false
  | JBool b => b
  | JNum n => negb (n =? 0)%Z
  | JFloat f => negb (float_is_zero f)
  | JStr x => match x with [] => false | _ => true end
  | JArray l => match l with [] => false | _ => true end
  | JObject d => match d with [] => false | _ => true end
  end.

(** [bool(x)] for an [Optional[str]] *)
Definition truthy_opt (x : option pystr) : bool :=
  match x with
  | Some (_ :: _) => true
  | _ => false
  end.

(** Exceptions: the subclasses of [Exception], which are the ones an
    [except Exception] clause catches. The three classes
    [call_mcp_tool] tells apart have a constructor each; every other
    subclass is [Exception cls msg], with [str(e) = msg].

    What does not derive from [Exception] is left out:
    [asyncio.CancelledError], [KeyboardInterrupt] and [SystemExit]
    pass through every [except] clause of the module. They reach a
    handler from outside, when its task is cancelled or the server is
    stopped while it awaits; the development follows handlers that run
    to their end. *)
Inductive exn :=
| TimeoutError
| JSONDecodeError (msg : pystr)
| HTTPException (status_code : Z) (detail : value)
| Exception (cls : pystr) (msg : pystr).

(** An [OSError] of class [cls], as the interpreter raises it for a
    failed system call. [ETIMEDOUT] is raised as the builtin
    [TimeoutError], and since Python 3.11 [asyncio.TimeoutError] is
    that very class. *)
Definition OSError (cls msg : pystr) : exn :=
  if pystr_eqb cls (py "TimeoutError") then TimeoutError
  else Exception cls msg.

Inductive Result (A : Type) :=
| Raise (e : exn)
| Return (a : A).
Arguments Raise {A} e.
Arguments Return {A} a.

(** Sequencing of operations that may raise. *)
Definition and_then {A B} (r : Result A) (k : A -> Result B) : Result B :=
  match r with
  | Return a => k a
  | Raise e => Raise e
  end.

(** [v.get(key, default)] *)
Definition get (v : value) (key : pystr) (default : value) : Result value :=
  match v with
  | JObject d =>
      Return (match lookup key d with Some x => x | None => default end)
  | _ =>
      Raise (Exception (py "AttributeError")
               (py "'" ++ type_name v ++ py "' object has no attribute 'get'"))
  end.

Fixpoint is_prefix (p x : pystr) : bool :=
  match p, x with
  | [], _ => true
  | a :: p', b :: x' => N.eqb a b && is_prefix p' x'
  | _ :: _, [] => false
  end.

Fixpoint is_substring (p x : pystr) : bool :=
  is_prefix p x || match x with [] => false | _ :: r => is_substring p r end.

(** [key in v], for a [str] key and any value [v] *)
Definition contains (key : pystr) (v : value) : Result bool :=
  match v with
  | JObject d => Return (match lookup key d with Some _ => true | None => false end)
  | JArray l =>
      Return (existsb (fun x => match x with JStr y => pystr_eqb y key | _ => false end) l)
  | JStr x => Return (is_substring key x)
  | _ =>
      Raise (Exception (py "TypeError")
               (py "argument of type '" ++ type_name v ++ py "' is not iterable"))
  end.

(** [repr(key)] of a [str] without quotes or backslashes to escape,
    which is all [KeyError] needs here. *)
Definition quoted (x : pystr) : pystr := py "'" ++ x ++ py "'".

(** [v[key]], for a [str] key *)
Definition getitem (v : value) (key : pystr) : Result value :=
  match v with
  | JObject d =>
      match lookup key d with
      | Some x => Return x
      | None => Raise (Exception (py "KeyError") (quoted key))
      end
  | JArray _ =>
      Raise (Exception (py "TypeError")
               (py "list indices must be integers or slices, not str"))
  | JStr _ =>
      Raise (Exception (py "TypeError")
               (py "string indices must be integers, not 'str'"))
  | _ =>
      Raise (Exception (py "TypeError")
               (py "'" ++ type_name v ++ py "' object is not subscriptable"))
  end.

(** [v[0]] *)
Definition getitem0 (v : value) : Result value :=
  match v with
  | JArray (x :: _) => Return x
  | JArray [] =>
      Raise (Exception (py "IndexError") (py "list index out of range"))
  | JStr (c :: _) => Return (JStr [c])
  | JStr [] =>
      Raise (Exception (py "IndexError") (py "string index out of range"))
  | JObject _ => Raise (Exception (py "KeyError") (py "0"))
  | _ =>
      Raise (Exception (py "TypeError")
               (py "'" ++ type_name v ++ py "' object is not subscriptable"))
  end.

(** Decimal numerals, as [str(n)] prints an [int]. *)
Fixpoint uint_digits (u : Decimal.uint) : pystr :=
  match u with
  | Decimal.Nil => []
  | Decimal.D0 r => 48%N :: uint_digits r
  | Decimal.D1 r => 49%N :: uint_digits r
  | Decimal.D2 r => 50%N :: uint_digits r
  | Decimal.D3 r => 51%N :: uint_digits r
  | Decimal.D4 r => 52%N :: uint_digits r
  | Decimal.D5 r => 53%N :: uint_digits r
  | Decimal.D6 r => 54%N :: uint_digits r
  | Decimal.D7 r => 55%N :: uint_digits r
  | Decimal.D8 r => 56%N :: uint_digits r
  | Decimal.D9 r => 57%N :: uint_digits r
  end.

Definition str_N (n : N) : pystr := uint_digits (N.to_uint n).

Definition str_Z (n : Z) : pystr :=
  match n with
  | Zneg p => py "-" ++ str_N (Npos p)
  | _ => str_N (Z.to_N n)
  end.

Definition hex_digit (d : N) : N :=
  (if d <? 10 then 48 + d else 87 + d)%N.

(** [format(n, '02x')] and [format(n, '04x')] *)
Definition hex2 (n : N) : pystr :=
  [hex_digit (n / 16 mod 16); hex_digit (n mod 16)]%N.
Definition hex4 (n : N) : pystr :=
  (hex2 (n / 256 mod 256) ++ hex2 (n mod 256))%N.

(** ** UTF-8

    [bytes.decode()] with the default codec and [errors='strict'],
    after CPython's [utf8_decode]: shortest forms only, no surrogates,
    nothing above U+10FFFF. A failure is a [UnicodeDecodeError] over the
    byte range [start, stop). *)
Definition is_cont (b : N) : bool := ((0x80 <=? b) && (b <? 0xc0))%N.

Inductive utf8_step :=
| Utf8Char (c : N) (rest : bytes)
| Utf8Bad (width : nat) (reason : pystr)
| Utf8Short.

Definition utf8_next (b0 : N) (r : bytes) : utf8_step :=
  (if b0 <? 0x80 then Utf8Char b0 r
   else if b0 <? 0xc2 then Utf8Bad 1 (py "invalid start byte")
   else if b0 <? 0xe0 then
     match r with
     | b1 :: r1 =>
         if is_cont b1 then Utf8Char ((b0 - 0xc0) * 64 + (b1 - 0x80)) r1
         else Utf8Bad 1 (py "invalid continuation byte")
     | [] => Utf8Short
     end
   else if b0 <? 0xf0 then
     match r with
     | b1 :: r1 =>
         if negb (is_cont b1)
            || (if b1 <? 0xa0 then b0 =? 0xe0 else b0 =? 0xed)
         then Utf8Bad 1 (py "invalid continuation byte")
         else match r1 with
              | b2 :: r2 =>
                  if is_cont b2
                  then Utf8Char ((b0 - 0xe0) * 4096 + (b1 - 0x80) * 64
                                 + (b2 - 0x80)) r2
                  else Utf8Bad 2 (py "invalid continuation byte")
              | [] => Utf8Short
              end
     | [] => Utf8Short
     end
   else if b0 <? 0xf5 then
     match r with
     | b1 :: r1 =>
         if negb (is_cont b1)
            || (if b1 <? 0x90 then b0 =? 0xf0 else b0 =? 0xf4)
         then Utf8Bad 1 (py "invalid continuation byte")
         else match r1 with
              | b2 :: r2 =>
                  if negb (is_cont b2)
                  then Utf8Bad 2 (py "invalid continuation byte")
                  else match r2 with
                       | b3 :: r3 =>
                           if is_cont b3
                           then Utf8Char ((b0 - 0xf0) * 262144
                                          + (b1 - 0x80) * 4096
                                          + (b2 - 0x80) * 64 + (b3 - 0x80)) r3
                           else Utf8Bad 3 (py "invalid continuation byte")
                       | [] => Utf8Short
                       end
              | [] => Utf8Short
              end
     | [] => Utf8Short
     end
   else Utf8Bad 1 (py "invalid start byte"))%N.

Definition UnicodeDecodeError (b0 : N) (start stop : nat) (reason : pystr) : exn :=
  Exception (py "UnicodeDecodeError")
    (if Nat.eqb stop (S start)
     then py "'utf-8' codec can't decode byte 0x" ++ hex2 b0
          ++ py " in position " ++ str_N (N.of_nat start) ++ py ": " ++ reason
     else py "'utf-8' codec can't decode bytes in position "
          ++ str_N (N.of_nat start) ++ py "-" ++ str_N (N.of_nat (stop - 1))
          ++ py ": " ++ reason).

Fixpoint decode_from (fuel : nat) (pos : nat) (b : bytes) : Result pystr :=
  match b with
  | [] => Return []
  | b0 :: r =>
      match fuel with
      | O => Return []
      | S fuel' =>
          match utf8_next b0 r with
          | Utf8Char c rest =>
              match decode_from fuel' (pos + (length b - length rest)) rest with
              | Return x => Return (c :: x)
              | Raise e => Raise e
              end
          | Utf8Bad width reason =>
              Raise (UnicodeDecodeError b0 pos (pos + width) reason)
          | Utf8Short =>
              Raise (UnicodeDecodeError b0 pos (pos + length b)
                       (py "unexpected end of data"))
          end
      end
  end.

(** [b.decode()]; every step consumes a byte, so [length b] steps do. *)
Definition decode (b : bytes) : Result pystr := decode_from (length b) 0 b.

(** [x.encode()]: UTF-8; a surrogate code point cannot be encoded. *)
Definition encode_char (c : N) : option bytes :=
  (if c <? 0x80 then Some [c]
   else if c <? 0x800 then Some [0xc0 + c / 64; 0x80 + c mod 64]
   else if (0xd800 <=? c) && (c <? 0xe000) then None
   else if c <? 0x10000
   then Some [0xe0 + c / 4096; 0x80 + c / 64 mod 64; 0x80 + c mod 64]
   else Some [0xf0 + c / 262144; 0x80 + c / 4096 mod 64;
              0x80 + c / 64 mod 64; 0x80 + c mod 64])%N.

Fixpoint encode_from (pos : nat) (x : pystr) : Result bytes :=
  match x with
  | [] => Return []
  | c :: r =>
      match encode_char c with
      | None =>
          Raise (Exception (py "UnicodeEncodeError")
                   (py "'utf-8' codec can't encode character '\u" ++ hex4 c
                    ++ py "' in position " ++ str_N (N.of_nat pos)
                    ++ py ": surrogates not allowed"))
      | Some b =>
          match encode_from (S pos) r with
          | Return rest => Return (b ++ rest)
          | Raise e => Raise e
          end
      end
  end.

Definition encode (x : pystr) : Result bytes := encode_from 0 x.

(** [os.path.join(a, b)] on POSIX, for a relative [b]. *)
Definition path_join (a b : pystr) : pystr :=
  match rev a with
  | [] => b
  | c :: _ => if (c =? 47)%N then a ++ b else a ++ py "/" ++ b
  end.

End Py.

(* ================================================================== *)
(** * Libraries and operating system                                   *)
(* ================================================================== *)

Import Py.

(** What the module takes from [json], Starlette and pydantic. The
    theorems about the bridge hold for every [Runtime]; [Ref.runtime]
    below is an executable one.
    - [json_loads x] is [json.loads(x)] for a [str]: a value, or the
      exception raised ([JSONDecodeError], and rarely others such as
      [RecursionError]);
    - [json_dumps v] is [json.dumps(v)];
    - [str_HTTPException status detail] is [str(e)] for
      [e = HTTPException(status, detail=detail)];
    - [as_int], [as_str], [as_dict] are pydantic's conversions of a
      request-body field to [int], [str] and [Dict[str, Any]]. *)
Record Runtime := {
  json_loads : pystr -> Result value;
  json_dumps : value -> pystr;
  str_HTTPException : Z -> value -> pystr;
  as_int : value -> option Z;
  as_str : value -> option pystr;
  as_dict : value -> option dict
}.

(** ** Child processes *)

Inductive proc_status :=
| Running
| Exited (returncode : Z).

(** One entry of the process table: how the child was started, what
    was written to its standard input, and whether it still runs. *)
Record process := {
  argv : list pystr;
  cwd : pystr;
  stdin_written : list bytes;
  stdin_closed : bool;
  status : proc_status
}.

(** The process table; a process handle is an index into it, and
    entries are only ever appended. *)
Definition World := list process.

(** What a child does once its input is written and closed: it exits
    after [elapsed] seconds having written [stdout] and [stderr], or it
    never exits. A child reads its input, and its output streams close
    when it exits (no descendant of its keeps them open), so that
    [communicate] completes when the child exits. *)
Inductive child_behaviour :=
| Exits (elapsed : Q) (returncode : Z) (stdout stderr : bytes)
| Hangs.

(** The operating system, as seen by the bridge: whether spawning the
    n-th process fails (with an [OSError] of class [cls], message
    [msg]: [FileNotFoundError] without [node], [PermissionError],
    [TimeoutError] for [ETIMEDOUT], ...), and how that child behaves on
    a given input. *)
Record OS := {
  os_spawn_error : nat -> list pystr -> pystr -> option (pystr * pystr);
  os_child : nat -> list pystr -> pystr -> bytes -> child_behaviour
}.

(** ** Computations: exceptions over the process table *)

Definition M (A : Type) := World -> Result A * World.

Definition ret {A} (a : A) : M A := fun w => (Return a, w).
Definition raise {A} (e : exn) : M A := fun w => (Raise e, w).
Definition lift {A} (r : Result A) : M A := fun w => (r, w).

Definition bind {A B} (m : M A) (k : A -> M B) : M B :=
  fun w =>
    match m w with
    | (Return a, w') => k a w'
    | (Raise e, w') => (Raise e, w')
    end.

(** [try: body  except ... as e: handler e] *)
Definition try_except {A} (body : M A) (handler : exn -> M A) : M A :=
  fun w =>
    match body w with
    | (Return a, w') => (Return a, w')
    | (Raise e, w') => handler e w'
    end.

Notation "x <-- r ;; k" := (and_then r (fun x => k))
  (at level 61, r at next level, right associativity).

Declare Scope py_scope.
Delimit Scope py_scope with py.
Notation "x <- m ;; k" := (bind m (fun x => k))
  (at level 61, m at next level, right associativity) : py_scope.
Notation "' p <- m ;; k" := (bind m (fun x => match x with p => k end))
  (at level 61, p pattern, m at next level, right associativity) : py_scope.
Open Scope py_scope.

(** ** asyncio subprocesses *)

Definition set_nth (w : World) (i : nat) (p : process) : World :=
  firstn i w ++ match skipn i w with
                | _ :: r => p :: r
                | [] => []
                end.

(** [asyncio.create_subprocess_exec] with the three streams piped: a new table entry and its handle, or the
    operating system's error. *)
Definition create_subprocess_exec (os : OS) (argv : list pystr) (cwd : pystr)
  : M nat :=
  fun w =>
    match os_spawn_error os (length w) argv cwd with
    | Some (cls, msg) => (Raise (OSError cls msg), w)
    | None =>
        (Return (length w),
         w ++ [{| argv := argv; cwd := cwd; stdin_written := [];
                  stdin_closed := false; status := Running |}])
    end.

(** An awaited operation on the process table: it completes after
    [elapsed] seconds in state [after], or never does; [meanwhile] is
    the state while it is still pending. *)
Inductive Awaitable (A : Type) :=
| Completes (elapsed : Q) (a : A) (after meanwhile : World)
| Never (meanwhile : World).
Arguments Never {A} meanwhile.

(** [proc.communicate(input)]: write [input] to the child's standard
    input and close it, then read both output streams to their end and
    wait for the child to exit. *)
Definition communicate (os : OS) (proc : nat) (input : bytes) (w : World)
  : Awaitable (bytes * bytes) :=
  match nth_error w proc with
  | None => Never w
  | Some p =>
      let fed st :=
        set_nth w proc
          {| argv := argv p; cwd := cwd p;
             stdin_written := stdin_written p ++ [input];
             stdin_closed := true; status := st |} in
      match os_child os proc (argv p) (cwd p) input with
      | Exits t rc out err =>
          Completes t (out, err) (fed (Exited rc)) (fed (status p))
      | Hangs => Never (fed (status p))
      end
  end.

(** [asyncio.wait_for(aw, timeout)]: the result of [aw] if it completes
    within [timeout] seconds; otherwise [aw] is cancelled where it
    stands and [TimeoutError] is raised. Cancelling [communicate] stops
    the waiting; it does nothing to the child. *)
Definition wait_for {A} (aw : World -> Awaitable A) (timeout : Q) : M A :=
  fun w =>
    match aw w with
    | Completes t a after meanwhile =>
        if Qle_bool timeout t then (Raise TimeoutError, meanwhile)
        else (Return a, after)
    | Never meanwhile => (Raise TimeoutError, meanwhile)
    end.

(** [proc.returncode]: [None] while the child runs. *)
Definition returncode (proc : nat) : M (option Z) :=
  fun w =>
    (Return match nth_error w proc with
            | Some {| status := Exited rc |} => Some rc
            | _ => None
            end, w).

(* ================================================================== *)
(** * The bridge                                                       *)
(* ================================================================== *)

(** ** Request models (the pydantic classes of the module) *)

Module CreateTaskRequest.
Record t := {
  task_type : pystr;
  priority : Z;
  input_data : dict;
  target_agent : option pystr;
  timeout : Z
}.
End CreateTaskRequest.

Module BroadcastRequest.
Record t := {
  message : pystr;
  coordinator : option pystr;
  status : option pystr
}.
End BroadcastRequest.

Module WorkflowRequest.
Record t := {
  template : option pystr;
  custom_workflow : option dict;
  input : dict;
  priority : Z
}.
End WorkflowRequest.

Module MemorySearchRequest.
Record t := {
  query : pystr;
  domain : option pystr;
  type : option pystr;
  limit : Z
}.
End MemorySearchRequest.

(** An HTTP response: status code and JSON body. *)
Definition response := (Z * value)%type.

Section Bridge.

Variable rt : Runtime.
Variable os : OS.

(** [VEGAMCP_PATH], read from the environment when the module loads. *)
Variable VEGAMCP_PATH : pystr.

Definition VEGAMCP_SERVER : pystr :=
  path_join (path_join VEGAMCP_PATH (py "build")) (py "index.js").

(** [str(e)] *)
Definition str (e : exn) : pystr :=
  match e with
  | TimeoutError => []
  | JSONDecodeError msg => msg
  | HTTPException status_code detail => str_HTTPException rt status_code detail
  | Exception _ msg => msg
  end.

(** [json.loads(v)] for an arbitrary value [v]: only a [str] is parsed. *)
Definition loads (v : value) : Result value :=
  match v with
  | JStr x => json_loads rt x
  | _ =>
      Raise (Exception (py "TypeError")
               (py "the JSON object must be str, bytes or bytearray, not "
                ++ type_name v))
  end.

(** The request envelope built at the top of [call_mcp_tool]. *)
Definition request (tool_name : pystr) (arguments : dict) : value :=
  JObject [(py "jsonrpc", JStr (py "2.0"));
           (py "id", JNum 1);
           (py "method", JStr (py "tools/call"));
           (py "params", JObject [(py "name", JStr tool_name);
                                  (py "arguments", JObject arguments)])].

(** The text handed to [json.loads]:
    [stdout.decode().strip().split("\n")[-1]], after decoding. [split]
    never returns an empty list, so [[-1]] always exists. *)
Definition reply_line (out_text : pystr) : pystr :=
  last (split 10 (strip out_text)) [].

(** From [if "error" in response] to the [return]: the reply, once
    parsed, becomes the tool's result or an exception. *)
Definition extract_result (response : value) : Result value :=
  has_error <-- contains (py "error") response ;;
  if (has_error : bool) then
    payload <-- getitem response (py "error") ;;
    Raise (HTTPException 500 payload)
  else
    result <-- get response (py "result") (JObject []) ;;
    content <-- get result (py "content") (JArray [JObject []]) ;;
    if truthy content then
      first <-- getitem0 content ;;
      text <-- get first (py "text") (JStr (py "{}")) ;;
      loads text
    else Return (JObject []).

(** Everything after [communicate] has returned: the exit status is
    checked, then the output is decoded, cut down to its last line and
    parsed. *)
Definition parse_response (rc : option Z) (stdout stderr : bytes)
  : Result value :=
  if match rc with Some 0%Z => false | _ => true end then
    err_text <-- decode stderr ;;
    Raise (HTTPException 500
             (JStr (py "VegaMCP error: " ++ firstn 500 err_text)))
  else
    out_text <-- decode stdout ;;
    response <-- json_loads rt (reply_line out_text) ;;
    extract_result response.

(** The [try] block of [call_mcp_tool]. *)
Definition call_mcp_tool_try (tool_name : pystr) (arguments : dict) : M value :=
  proc <- create_subprocess_exec os [py "node"; VEGAMCP_SERVER] VEGAMCP_PATH ;;
  request_bytes <- lift (encode (json_dumps rt (request tool_name arguments))) ;;
  ' (stdout, stderr) <- wait_for (communicate os proc request_bytes) 30 ;;
  rc <- returncode proc ;;
  lift (parse_response rc stdout stderr).

(** The three [except] clauses, tried in order: what is raised in place
    of the exception caught. [HTTPException] is itself an [Exception],
    so the last clause also catches the two raised in the [try] block. *)
Definition http_error (e : exn) : exn :=
  match e with
  | TimeoutError => HTTPException 504 (JStr (py "VegaMCP request timed out"))
  | JSONDecodeError _ =>
      HTTPException 500 (JStr (py "Invalid response from VegaMCP: " ++ str e))
  | _ => HTTPException 500 (JStr (str e))
  end.

Definition call_mcp_tool (tool_name : pystr) (arguments : dict) : M value :=
  try_except (call_mcp_tool_try tool_name arguments)
    (fun e => raise (http_error e)).

(** What the [try] statement makes of an outcome of its block. *)
Definition caught (r : Result value) : Result value :=
  match r with
  | Return v => Return v
  | Raise e => Raise (http_error e)
  end.

(** ** Route handlers *)

Definition opt_str (x : option pystr) : value :=
  match x with Some y => JStr y | None => JNull end.

Definition opt_dict (x : option dict) : value :=
  match x with Some d => JObject d | None => JNull end.

(** The [args] dictionary each handler builds before the call. *)
Definition list_agents_args (coordinator status : option pystr) : dict :=
  let args := [] in
  let args := if truthy_opt coordinator
              then setitem args (py "coordinator") (opt_str coordinator)
              else args in
  let args := if truthy_opt status
              then setitem args (py "status") (opt_str status)
              else args in
  args.

Definition list_agents (coordinator status : option pystr) : M value :=
  call_mcp_tool (py "swarm_list_agents") (list_agents_args coordinator status).

Definition broadcast_message_args (request : BroadcastRequest.t) : dict :=
  let args := [(py "message", JStr (BroadcastRequest.message request))] in
  let args := if truthy_opt (BroadcastRequest.coordinator request)
              then setitem args (py "coordinator")
                     (opt_str (BroadcastRequest.coordinator request))
              else args in
  let args := if truthy_opt (BroadcastRequest.status request)
              then setitem args (py "status")
                     (opt_str (BroadcastRequest.status request))
              else args in
  args.

Definition broadcast_message (request : BroadcastRequest.t) : M value :=
  call_mcp_tool (py "swarm_broadcast") (broadcast_message_args request).

Definition create_task_args (request : CreateTaskRequest.t) : dict :=
  let args := [(py "task_type", JStr (CreateTaskRequest.task_type request));
               (py "priority", JNum (CreateTaskRequest.priority request));
               (py "input_data", JObject (CreateTaskRequest.input_data request));
               (py "timeout", JNum (CreateTaskRequest.timeout request))] in
  let args := if truthy_opt (CreateTaskRequest.target_agent request)
              then setitem args (py "target_agent")
                     (opt_str (CreateTaskRequest.target_agent request))
              else args in
  args.

Definition create_task (request : CreateTaskRequest.t) : M value :=
  call_mcp_tool (py "swarm_create_task") (create_task_args request).

Definition execute_workflow_args (request : WorkflowRequest.t) : dict :=
  let args := [(py "input", JObject (WorkflowRequest.input request));
               (py "priority", JNum (WorkflowRequest.priority request))] in
  let args := if truthy_opt (WorkflowRequest.template request)
              then setitem args (py "template")
                     (opt_str (WorkflowRequest.template request))
              else args in
  let args := if truthy (opt_dict (WorkflowRequest.custom_workflow request))
              then setitem args (py "custom_workflow")
                     (opt_dict (WorkflowRequest.custom_workflow request))
              else args in
  args.

Definition execute_workflow (request : WorkflowRequest.t) : M value :=
  call_mcp_tool (py "workflow_execute") (execute_workflow_args request).

Definition search_memory_args (request : MemorySearchRequest.t) : dict :=
  let args := [(py "query", JStr (MemorySearchRequest.query request));
               (py "limit", JNum (MemorySearchRequest.limit request))] in
  let args := if truthy_opt (MemorySearchRequest.domain request)
              then setitem args (py "domain")
                     (opt_str (MemorySearchRequest.domain request))
              else args in
  let args := if truthy_opt (MemorySearchRequest.type request)
              then setitem args (py "type")
                     (opt_str (MemorySearchRequest.type request))
              else args in
  args.

Definition search_memory (request : MemorySearchRequest.t) : M value :=
  call_mcp_tool (py "search_graph") (search_memory_args request).

(** [[n.strip() for n in names.split(",")]] *)
Definition open_nodes_name_list (names : pystr) : list pystr :=
  map strip (split 44 names).

Definition open_nodes (names : pystr) : M value :=
  call_mcp_tool (py "open_nodes")
    [(py "names", JArray (map JStr (open_nodes_name_list names)))].

(** ** Request validation and dispatch (FastAPI and pydantic)

    The body of [POST /tasks] is validated against [CreateTaskRequest]
    before the handler runs: each declared field is looked up,
    converted, and checked against its [Field] bounds; a missing field
    takes its default, or is an error when it has none ([...]). The
    result is the model, or the names of the fields in error. *)

Definition field {A} (d : dict) (name : pystr) (default : option A)
    (conv : value -> option A) (ok : A -> bool) : list pystr + A :=
  match lookup name d with
  | None =>
      match default with
      | Some a => inr a
      | None => inl [name]
      end
  | Some v =>
      match conv v with
      | Some a => if ok a then inr a else inl [name]
      | None => inl [name]
      end
  end.

Definition errors_of {A} (r : list pystr + A) : list pystr :=
  match r with inl e => e | inr _ => [] end.

Definition optional_str (v : value) : option (option pystr) :=
  match v with
  | JNull => Some None
  | _ => option_map Some (as_str rt v)
  end.

Definition validate_CreateTaskRequest (body : value)
  : list pystr + CreateTaskRequest.t :=
  match body with
  | JObject d =>
      let task_type := field d (py "task_type") None (as_str rt) (fun _ => true) in
      let priority :=
        field d (py "priority") (Some 2%Z) (as_int rt)
          (fun n => (0 <=? n)%Z && (n <=? 3)%Z) in
      let input_data := field d (py "input_data") (Some []) (as_dict rt) (fun _ => true) in
      let target_agent :=
        field d (py "target_agent") (Some None) optional_str (fun _ => true) in
      let timeout :=
        field d (py "timeout") (Some 300%Z) (as_int rt)
          (fun n => (10 <=? n)%Z && (n <=? 3600)%Z) in
      match task_type, priority, input_data, target_agent, timeout with
      | inr a, inr b, inr c, inr d', inr e =>
          inr {| CreateTaskRequest.task_type := a;
                 CreateTaskRequest.priority := b;
                 CreateTaskRequest.input_data := c;
                 CreateTaskRequest.target_agent := d';
                 CreateTaskRequest.timeout := e |}
      | _, _, _, _, _ =>
          inl (errors_of task_type ++ errors_of priority ++ errors_of input_data
               ++ errors_of target_agent ++ errors_of timeout)
      end
  | _ => inl [py "body"]
  end.

(** What FastAPI sends for a handler's outcome: the value returned
    with status 200, the detail of an [HTTPException] with its status,
    and the server's own 500 for any other exception. The body is
    rendered by Starlette's [JSONResponse], with [allow_nan=False]:
    when it holds an infinity or a NaN, which [json.loads] accepts,
    rendering raises [ValueError] and the answer is that 500 too. *)
Definition respond (r : Result value) : response :=
  let server_error := (500%Z, JStr (py "Internal Server Error")) in
  match r with
  | Return v => if json_compliant v then (200%Z, v) else server_error
  | Raise (HTTPException status_code detail) =>
      if json_compliant detail
      then (status_code, JObject [(py "detail", detail)])
      else server_error
  | Raise _ => server_error
  end.

(** [POST /tasks]: validation failure is answered with 422 and the
    handler is not run. *)
Definition post_tasks (body : value) (w : World) : response * World :=
  match validate_CreateTaskRequest body with
  | inl errs => ((422%Z, JObject [(py "detail", JArray (map JStr errs))]), w)
  | inr request => let (r, w') := create_task request w in (respond r, w')
  end.

End Bridge.

(** ** The other routes *)

Module PipelineStep.
Record t := {
  step_id : pystr;
  task_type : pystr;
  input : dict;
  on_success : option pystr;
  on_failure : option pystr
}.
End PipelineStep.

Module PipelineRequest.
Record t := {
  name : pystr;
  steps : list PipelineStep.t;
  initial_step : pystr;
  priority : Z;
  timeout : Z
}.
End PipelineRequest.

Section Routes.

Variable rt : Runtime.
Variable os : OS.
Variable VEGAMCP_PATH : pystr.

(** [GET /status]: two calls, one after the other, then the four
    entries of the answer, each read with [dict.get] and a default. *)
Definition get_swarm_status : M value :=
  agents <- call_mcp_tool rt os VEGAMCP_PATH (py "swarm_list_agents") [] ;;
  metrics <- call_mcp_tool rt os VEGAMCP_PATH (py "swarm_get_metrics")
               [(py "summary", JBool true)] ;;
  agents_list <- lift (get agents (py "agents") (JArray [])) ;;
  total <- lift (get agents (py "totalAgents") (JNum 0)) ;;
  stats <- lift (get metrics (py "swarmStats") (JObject [])) ;;
  summary <- lift (get metrics (py "metricsSummary") (JObject [])) ;;
  ret (JObject [(py "agents", agents_list);
                (py "totalAgents", total);
                (py "stats", stats);
                (py "metricsSummary", summary)]).

(** [GET /metrics], once FastAPI has converted the query parameters. *)
Definition get_metrics_args (agent_id metric_name : option pystr)
    (summary : bool) (limit : Z) : dict :=
  let args := [(py "summary", JBool summary); (py "limit", JNum limit)] in
  let args := if truthy_opt agent_id
              then setitem args (py "agent_id") (opt_str agent_id)
              else args in
  let args := if truthy_opt metric_name
              then setitem args (py "metric_name") (opt_str metric_name)
              else args in
  args.

Definition get_metrics (agent_id metric_name : option pystr)
    (summary : bool) (limit : Z) : M value :=
  call_mcp_tool rt os VEGAMCP_PATH (py "swarm_get_metrics")
    (get_metrics_args agent_id metric_name summary limit).

(** [s.dict()] for a [PipelineStep]: every field, in the order of
    declaration, [None] included. *)
Definition PipelineStep_dict (s : PipelineStep.t) : dict :=
  [(py "step_id", JStr (PipelineStep.step_id s));
   (py "task_type", JStr (PipelineStep.task_type s));
   (py "input", JObject (PipelineStep.input s));
   (py "on_success", opt_str (PipelineStep.on_success s));
   (py "on_failure", opt_str (PipelineStep.on_failure s))].

Definition run_pipeline_args (request : PipelineRequest.t) : dict :=
  [(py "name", JStr (PipelineRequest.name request));
   (py "steps",
    JArray (map (fun s => JObject (PipelineStep_dict s))
              (PipelineRequest.steps request)));
   (py "initial_step", JStr (PipelineRequest.initial_step request));
   (py "priority", JNum (PipelineRequest.priority request));
   (py "timeout", JNum (PipelineRequest.timeout request))].

Definition run_pipeline (request : PipelineRequest.t) : M value :=
  call_mcp_tool rt os VEGAMCP_PATH (py "swarm_run_pipeline")
    (run_pipeline_args request).

End Routes.

(* ================================================================== *)
(** * A reference runtime                                              *)
(* ================================================================== *)

(** One executable [Runtime]: [json.loads] and [json.dumps] as CPython
    3.11 implements them (the C scanner and its error positions, the
    default [ensure_ascii] encoder), [str] of an [HTTPException] as
    Starlette defines it, and pydantic's conversions in their strict
    form. Where it departs from the libraries is said at the
    definition. *)
Module Ref.

Definition ch (a : ascii) : N := N_of_ascii a.
Definition eqc (c : N) (a : ascii) : bool := N.eqb c (ch a).

(** The double quote. *)
Definition dquote : N := 34%N.
Definition is_dquote (c : N) : bool := N.eqb c dquote.

Definition is_digit (c : N) : bool := ((48 <=? c) && (c <=? 57))%N.

(** ** [json.loads] *)

(** The scanner's outcomes: a value and the unread input; a
    [JSONDecodeError] with its message and the input left at the error
    position; or another exception. *)
Inductive parsed (A : Type) :=
| POk (a : A) (rest : pystr)
| PErr (msg : pystr) (at_ : pystr)
| PExc (e : exn).
Arguments PErr {A} msg at_.
Arguments PExc {A} e.

Definition json_ws (c : N) : bool :=
  eqc c " " || (c =? 9)%N || (c =? 10)%N || (c =? 13)%N.

Fixpoint skip_ws (x : pystr) : pystr :=
  match x with
  | c :: r => if json_ws c then skip_ws r else x
  | [] => []
  end.

Definition hex_val (c : N) : option N :=
  (if is_digit c then Some (c - 48)
   else if (97 <=? c) && (c <=? 102) then Some (c - 87)
   else if (65 <=? c) && (c <=? 70) then Some (c - 55)
   else None)%N.

(** Four hexadecimal digits. *)
Definition hex4_val (x : pystr) : option (N * pystr) :=
  match x with
  | a :: b :: c :: d :: r =>
      match hex_val a, hex_val b, hex_val c, hex_val d with
      | Some a', Some b', Some c', Some d' =>
          Some (a' * 4096 + b' * 256 + c' * 16 + d', r)%N
      | _, _, _, _ => None
      end
  | _ => None
  end.

Definition simple_escape (c : N) : option N :=
  if is_dquote c then Some dquote
  else if eqc c "\" then Some (ch "\")
  else if eqc c "/" then Some (ch "/")
  else if eqc c "b" then Some 8%N
  else if eqc c "f" then Some 12%N
  else if eqc c "n" then Some 10%N
  else if eqc c "r" then Some 13%N
  else if eqc c "t" then Some 9%N
  else None.

(** [scanstring]: [x] is the input after the opening quote, [begin]
    the input at that quote. A [\uXXXX] escape needs a fifth character
    after its digits; a high surrogate is joined with a following low
    surrogate escape when at least seven characters follow it. *)
Fixpoint scanstring (fuel : nat) (begin x : pystr) : parsed pystr :=
  match fuel with
  | O => PErr (py "Unterminated string starting at") begin
  | S fuel' =>
      match x with
      | [] => PErr (py "Unterminated string starting at") begin
      | c :: r =>
          if is_dquote c then POk [] r
          else if eqc c "\" then
            match r with
            | [] => PErr (py "Unterminated string starting at") begin
            | e :: r1 =>
                if eqc e "u" then
                  if (length r1 <=? 4)%nat
                  then PErr (py "Invalid \uXXXX escape") r
                  else
                    match hex4_val r1 with
                    | None => PErr (py "Invalid \uXXXX escape") r
                    | Some (hi, r2) =>
                        let single :=
                          match scanstring fuel' begin r2 with
                          | POk s rest => POk (hi :: s) rest
                          | other => other
                          end in
                        if ((0xd800 <=? hi) && (hi <=? 0xdbff))%N
                           && (7 <=? length r2)%nat
                        then
                          match r2 with
                          | b :: u :: r3 =>
                              if eqc b "\" && eqc u "u" then
                                match hex4_val r3 with
                                | None =>
                                    PErr (py "Invalid \uXXXX escape") (u :: r3)
                                | Some (lo, r4) =>
                                    if ((0xdc00 <=? lo) && (lo <=? 0xdfff))%N
                                    then
                                      match scanstring fuel' begin r4 with
                                      | POk s rest =>
                                          POk ((0x10000 + (hi - 0xd800) * 1024
                                                + (lo - 0xdc00))%N :: s) rest
                                      | other => other
                                      end
                                    else single
                                end
                              else single
                          | _ => single
                          end
                        else single
                    end
                else
                  match simple_escape e with
                  | Some c' =>
                      match scanstring fuel' begin r1 with
                      | POk s rest => POk (c' :: s) rest
                      | other => other
                      end
                  | None => PErr (py "Invalid \escape") x
                  end
            end
          else if (c <=? 0x1f)%N
          then PErr (py "Invalid control character at") x
          else
            match scanstring fuel' begin r with
            | POk s rest => POk (c :: s) rest
            | other => other
            end
      end
  end.

Fixpoint take_digits (x : pystr) : pystr * pystr :=
  match x with
  | c :: r =>
      if is_digit c then let (d, rest) := take_digits r in (c :: d, rest)
      else ([], x)
  | [] => ([], [])
  end.

Definition digits_value (d : pystr) : N :=
  fold_left (fun acc c => (acc * 10 + (c - 48))%N) d 0%N.

(** The integer part of a numeral: [0], or a non-zero digit and more
    digits. *)
Definition int_part (x : pystr) : option (pystr * pystr) :=
  match x with
  | c :: r =>
      if eqc c "0" then Some ([c], r)
      else if is_digit c then Some (take_digits x)
      else None
  | [] => None
  end.

(** [.digits], when there is at least one digit. *)
Definition frac_part (x : pystr) : pystr * pystr :=
  match x with
  | c :: r =>
      if eqc c "." then
        match take_digits r with
        | ([], _) => ([], x)
        | (d, rest) => (d, rest)
        end
      else ([], x)
  | [] => ([], x)
  end.

(** [e], an optional sign and digits, when there is at least one
    digit. *)
Definition exp_part (x : pystr) : option Z * pystr :=
  match x with
  | c :: r =>
      if eqc c "e" || eqc c "E" then
        let (neg, r1) :=
          match r with
          | sg :: r' =>
              if eqc sg "-" then (true, r')
              else if eqc sg "+" then (false, r')
              else (false, r)
          | [] => (false, r)
          end in
        match take_digits r1 with
        | ([], _) => (None, x)
        | (d, rest) =>
            (Some (if neg then - Z.of_N (digits_value d)
                   else Z.of_N (digits_value d))%Z, rest)
        end
      else (None, x)
  | [] => (None, x)
  end.

Definition int_max_str_digits : nat := 4300.

(** [_match_number]: [None] when no numeral starts at [x]. An integer
    literal of more than 4300 digits is a [ValueError]. *)
Definition match_number (x : pystr) : option (parsed value) :=
  let (neg, x1) :=
    match x with
    | c :: r => if eqc c "-" then (true, r) else (false, x)
    | [] => (false, x)
    end in
  match int_part x1 with
  | None => None
  | Some (ip, x2) =>
      let (fp, x3) := frac_part x2 in
      let (ep, x4) := exp_part x3 in
      match fp, ep with
      | [], None =>
          if (int_max_str_digits <? length ip)%nat
          then Some (PExc (Exception (py "ValueError")
                 (py "Exceeds the limit (4300 digits) for integer string conversion: value has "
                  ++ str_N (N.of_nat (length ip))
                  ++ py " digits; use sys.set_int_max_str_digits() to increase the limit")))
          else Some (POk (JNum (if neg then - Z.of_N (digits_value ip)
                                else Z.of_N (digits_value ip))%Z) x4)
      | _, _ =>
          Some (POk (JFloat (FDec neg (digits_value (ip ++ fp))
                               (match ep with Some e => e | None => 0 end
                                - Z.of_nat (length fp))%Z)) x4)
      end
  end.

(** A keyword at the head of the input. *)
Definition keyword (k : pystr) (x : pystr) : option pystr :=
  if is_prefix k x then Some (skipn (length k) x) else None.

Definition expecting_value {A} (x : pystr) : parsed A :=
  PErr (py "Expecting value") x.

(** [scan_once], with the loops of [_parse_object] and [_parse_array].
    Every call reads at least one character before it calls again, so
    the fuel [json_loads] gives is never used up; CPython gives up
    earlier, with [RecursionError], on nesting about a thousand deep,
    which this scanner does not reproduce. *)
Fixpoint scan_once (fuel : nat) (x : pystr) : parsed value :=
  match fuel with
  | O => PExc (Exception (py "RecursionError")
                 (py "maximum recursion depth exceeded"))
  | S fuel' =>
      match x with
      | [] => expecting_value x
      | c :: r =>
          if is_dquote c then
            match scanstring (length r) x r with
            | POk s rest => POk (JStr s) rest
            | PErr m a => PErr m a
            | PExc e => PExc e
            end
          else if eqc c "{" then
            let r' := skip_ws r in
            match r' with
            | c' :: r'' =>
                if eqc c' "}" then POk (JObject []) r''
                else parse_members fuel' [] r'
            | [] => parse_members fuel' [] r'
            end
          else if eqc c "[" then
            let r' := skip_ws r in
            match r' with
            | c' :: r'' =>
                if eqc c' "]" then POk (JArray []) r''
                else parse_elements fuel' [] r'
            | [] => parse_elements fuel' [] r'
            end
          else
            match keyword (py "null") x, keyword (py "true") x,
                  keyword (py "false") x, keyword (py "NaN") x,
                  keyword (py "Infinity") x, keyword (py "-Infinity") x with
            | Some rest, _, _, _, _, _ => POk JNull rest
            | _, Some rest, _, _, _, _ => POk (JBool true) rest
            | _, _, Some rest, _, _, _ => POk (JBool false) rest
            | _, _, _, Some rest, _, _ => POk (JFloat FNaN) rest
            | _, _, _, _, Some rest, _ => POk (JFloat (FInf false)) rest
            | _, _, _, _, _, Some rest => POk (JFloat (FInf true)) rest
            | _, _, _, _, _, _ =>
                match match_number x with
                | Some p => p
                | None => expecting_value x
                end
            end
      end
  end

(** [x] stands where a key must start; [acc] holds the pairs read. *)
with parse_members (fuel : nat) (acc : dict) (x : pystr) : parsed value :=
  match fuel with
  | O => PExc (Exception (py "RecursionError")
                 (py "maximum recursion depth exceeded"))
  | S fuel' =>
      match x with
      | c :: r =>
          if is_dquote c then
            match scanstring (length r) x r with
            | POk key x1 =>
                match skip_ws x1 with
                | c1 :: r1 =>
                    if eqc c1 ":" then
                      match scan_once fuel' (skip_ws r1) with
                      | POk v x2 =>
                          let acc' := setitem acc key v in
                          match skip_ws x2 with
                          | c2 :: r2 =>
                              if eqc c2 "}" then POk (JObject acc') r2
                              else if eqc c2 ","
                              then parse_members fuel' acc' (skip_ws r2)
                              else PErr (py "Expecting ',' delimiter") (c2 :: r2)
                          | [] => PErr (py "Expecting ',' delimiter") []
                          end
                      | other => other
                      end
                    else PErr (py "Expecting ':' delimiter") (c1 :: r1)
                | [] => PErr (py "Expecting ':' delimiter") []
                end
            | PErr m a => PErr m a
            | PExc e => PExc e
            end
          else PErr (py "Expecting property name enclosed in double quotes") x
      | [] => PErr (py "Expecting property name enclosed in double quotes") x
      end
  end

(** [x] stands where an element must start; [acc] holds, in reverse,
    the elements read. *)
with parse_elements (fuel : nat) (acc : list value) (x : pystr) : parsed value :=
  match fuel with
  | O => PExc (Exception (py "RecursionError")
                 (py "maximum recursion depth exceeded"))
  | S fuel' =>
      match scan_once fuel' x with
      | POk v x1 =>
          match skip_ws x1 with
          | c1 :: r1 =>
              if eqc c1 "]" then POk (JArray (rev (v :: acc))) r1
              else if eqc c1 ","
              then parse_elements fuel' (v :: acc) (skip_ws r1)
              else PErr (py "Expecting ',' delimiter") (c1 :: r1)
          | [] => PErr (py "Expecting ',' delimiter") []
          end
      | other => other
      end
  end.

(** [str(JSONDecodeError(msg, doc, pos))] *)
Definition errmsg (msg doc : pystr) (pos : nat) : pystr :=
  let before := firstn pos doc in
  let lineno := S (count_occ N.eq_dec before 10%N) in
  let colno :=
    (fix col (l : pystr) (n : nat) : nat :=
       match l with
       | [] => n
       | c :: r => if (c =? 10)%N then n else col r (S n)
       end) (rev before) 1%nat in
  msg ++ py ": line " ++ str_N (N.of_nat lineno)
      ++ py " column " ++ str_N (N.of_nat colno)
      ++ py " (char " ++ str_N (N.of_nat pos) ++ py ")".

Definition json_loads (doc : pystr) : Result value :=
  let at_ (rest : pystr) := (length doc - length rest)%nat in
  match doc with
  | 0xfeff%N :: _ =>
      Raise (JSONDecodeError
               (errmsg (py "Unexpected UTF-8 BOM (decode using utf-8-sig)") doc 0))
  | _ =>
      match scan_once (2 * length doc + 2) (skip_ws doc) with
      | POk v rest =>
          match skip_ws rest with
          | [] => Return v
          | rest' => Raise (JSONDecodeError (errmsg (py "Extra data") doc (at_ rest')))
          end
      | PErr msg rest => Raise (JSONDecodeError (errmsg msg doc (at_ rest)))
      | PExc e => Raise e
      end
  end.

(** ** [json.dumps] *)

(** A float is written as the decimal numeral it stands for, mantissa
    and exponent: the same number, though not the digits [float.__repr__]
    would choose. *)
Definition float_numeral (f : pyfloat) : pystr :=
  match f with
  | FDec neg m e =>
      (if neg then py "-" else []) ++ str_N m ++ py "e" ++ str_Z e
  | FInf false => py "Infinity"
  | FInf true => py "-Infinity"
  | FNaN => py "NaN"
  end.

(** [encode_basestring_ascii]: everything outside [' '..'~'] is
    escaped, code points above U+FFFF as a surrogate pair. *)
Definition escape_ascii (c : N) : pystr :=
  if is_dquote c then [ch "\"; dquote]
  else if eqc c "\" then py "\\"
  else if (c =? 10)%N then py "\n"
  else if (c =? 13)%N then py "\r"
  else if (c =? 9)%N then py "\t"
  else if (c =? 8)%N then py "\b"
  else if (c =? 12)%N then py "\f"
  else if ((0x20 <=? c) && (c <=? 0x7e))%N then [c]
  else if (c <? 0x10000)%N then py "\u" ++ hex4 c
  else py "\u" ++ hex4 (0xd800 + (c - 0x10000) / 1024 mod 1024)%N
       ++ py "\u" ++ hex4 (0xdc00 + (c - 0x10000) mod 1024)%N.

Definition encode_basestring_ascii (x : pystr) : pystr :=
  [dquote] ++ flat_map escape_ascii x ++ [dquote].

(** [json.dumps(v)] with the default separators. *)
Fixpoint json_dumps (v : value) : pystr :=
  match v with
  | JNull => py "null"
  | JBool true => py "true"
  | JBool false => py "false"
  | JNum n => str_Z n
  | JFloat f => float_numeral f
  | JStr x => encode_basestring_ascii x
  | JArray l => py "[" ++ join (py ", ") (map json_dumps l) ++ py "]"
  | JObject d =>
      py "{"
      ++ join (py ", ")
           (map (fun kv => encode_basestring_ascii (fst kv) ++ py ": "
                           ++ json_dumps (snd kv)) d)
      ++ py "}"
  end.

(** ** [str] and [repr] of values *)

(** [repr] of one character of a [str] quoted with [q]. Beyond
    Latin-1 every code point but a surrogate is taken to be printable;
    Python asks the Unicode database. *)
Definition repr_char (q : N) (c : N) : pystr :=
  if eqc c "\" then py "\\"
  else if (c =? q)%N then [ch "\"; c]
  else if (c =? 9)%N then py "\t"
  else if (c =? 10)%N then py "\n"
  else if (c =? 13)%N then py "\r"
  else if ((c <? 0x20) || ((0x7f <=? c) && (c <=? 0xa0)) || (c =? 0xad))%N
  then py "\x" ++ hex2 c
  else if ((0xd800 <=? c) && (c <=? 0xdfff))%N then py "\u" ++ hex4 c
  else [c].

(** [repr(x)] for a [str]: single quotes, unless the text has a single
    quote and no double quote. *)
Definition repr_str (x : pystr) : pystr :=
  let q := if existsb (fun c => eqc c "'") x
              && negb (existsb is_dquote x)
           then dquote else ch "'" in
  [q] ++ flat_map (repr_char q) x ++ [q].

Fixpoint repr (v : value) : pystr :=
  match v with
  | JNull => py "None"
  | JBool true => py "True"
  | JBool false => py "False"
  | JNum n => str_Z n
  | JFloat f => float_numeral f
  | JStr x => repr_str x
  | JArray l => py "[" ++ join (py ", ") (map repr l) ++ py "]"
  | JObject d =>
      py "{"
      ++ join (py ", ")
           (map (fun kv => repr_str (fst kv) ++ py ": " ++ repr (snd kv)) d)
      ++ py "}"
  end.

(** [str(v)] *)
Definition str_value (v : value) : pystr :=
  match v with
  | JStr x => x
  | _ => repr v
  end.

(** [http.HTTPStatus(status_code).phrase], for the codes a bridge
    answers with; [HTTPStatus] knows more, and raises for a number
    that is no status code, where this gives the empty string. *)
Definition status_phrase (status_code : Z) : pystr :=
  match status_code with
  | 400 => py "Bad Request"
  | 401 => py "Unauthorized"
  | 403 => py "Forbidden"
  | 404 => py "Not Found"
  | 422 => py "Unprocessable Entity"
  | 500 => py "Internal Server Error"
  | 502 => py "Bad Gateway"
  | 503 => py "Service Unavailable"
  | 504 => py "Gateway Timeout"
  | _ => []
  end%Z.

(** Starlette's [HTTPException]: the constructor replaces a detail of
    [None] by the phrase of the status, and [__str__] is
    [f"{status_code}: {detail}"]. *)
Definition str_HTTPException (status_code : Z) (detail : value) : pystr :=
  str_Z status_code ++ py ": "
  ++ match detail with
     | JNull => status_phrase status_code
     | _ => str_value detail
     end.

(** pydantic in strict form: a field's JSON type must be the declared
    one. *)
Definition as_int (v : value) : option Z :=
  match v with JNum n => Some n | _ => None end.
Definition as_str (v : value) : option pystr :=
  match v with JStr x => Some x | _ => None end.
Definition as_dict (v : value) : option dict :=
  match v with JObject d => Some d | _ => None end.

Definition runtime : Runtime :=
  Build_Runtime json_loads json_dumps str_HTTPException as_int as_str as_dict.

End Ref.

(* ================================================================== *)
(** * Statements taken from the specification                          *)
(* ================================================================== *)

(** The nested text as the specification words it: the [text] field of
    the first element of the reply's [result.content] array, and the
    literal [{}] when the field is absent. A reply without [result],
    without [content], or with nothing at the head of [content] has no
    such field either. *)
Definition spec_nested_text (reply : dict) : value :=
  match lookup (py "result") reply with
  | Some (JObject result) =>
      match lookup (py "content") result with
      | Some (JArray (JObject first :: _)) =>
          match lookup (py "text") first with
          | Some text => text
          | None => JStr (py "{}")
          end
      | _ => JStr (py "{}")
      end
  | _ => JStr (py "{}")
  end.

(** The replies on which the bridge and the specification agree:
    [result] is absent or an object; its [content] is absent, or falsy
    (an empty array, [null], ...), or an array whose first element is
    an object. *)
Definition well_shaped (reply : dict) : bool :=
  match lookup (py "result") reply with
  | None => true
  | Some (JObject result) =>
      match lookup (py "content") result with
      | None => true
      | Some content =>
          negb (truthy content)
          || match content with
             | JArray (JObject _ :: _) => true
             | _ => false
             end
      end
  | _ => false
  end.

(** A line is blank when it holds nothing but whitespace. *)
Definition blank (x : pystr) : bool := forallb isspace x.

(** The lines of the output that are not blank. *)
Definition nonblank_lines (out_text : pystr) : list pystr :=
  filter (fun l => negb (blank l)) (split 10 out_text).

(** The last non-empty line of the output as the specification words
    it: the text is split into lines and the last line that is not
    blank is taken. *)
Definition spec_last_nonempty_line (out_text : pystr) : option pystr :=
  match nonblank_lines out_text with
  | [] => None
  | l :: ls => Some (last ls l)
  end.

(* ================================================================== *)
(** * Example environments and outputs                               *)
(* ================================================================== *)

(** An operating system on which every spawn succeeds and every child
    behaves as [b]. *)
Definition always (b : child_behaviour) : OS :=
  {| os_spawn_error := fun _ _ _ => None;
     os_child := fun _ _ _ _ => b |}.

(** An ASCII literal in which ['] stands for the double quote. *)
Definition dq (x : String.string) : pystr :=
  map (fun c => if (c =? 39)%N then 34%N else c) (py x).
Arguments dq x%_string_scope.

(** The installation root used in the examples. *)
Definition root : pystr := py "/opt/VegaMCP".

(** A tenth of a second: well within the timeout. *)
Definition quick : Q := 1 # 10.

(** Outputs of the tool server: the reply of the specification's
    round trip; an error reply; a reply whose result is [null]; the
    empty object after a form feed, alone and after a line of log. *)
Definition echo_reply : bytes :=
  dq "{'result':{'content':[{'text':'{\'ok\':true}'}]}}".
Definition error_reply : bytes :=
  dq "{'jsonrpc':'2.0','id':1,'error':{'code':-32601,'message':'Method not found'}}".
Definition null_reply : bytes :=
  dq "{'jsonrpc':'2.0','id':1,'result':null}".
Definition form_feed_reply : bytes := [12%N] ++ py "{}".
Definition logged_form_feed_reply : bytes :=
  py "starting" ++ [10%N] ++ form_feed_reply.
Definition logged_echo_reply : bytes :=
  py "[info] server started" ++ [10%N] ++ echo_reply ++ [10%N].

(** The request of [GET /agents] without filters, as written to the
    child. *)
Definition list_agents_request : bytes :=
  dq "{'jsonrpc': '2.0', 'id': 1, 'method': 'tools/call', 'params': {'name': 'swarm_list_agents', 'arguments': {}}}".

(** An operating system without [node]: every spawn is refused. *)
Definition refusing : OS :=
  {| os_spawn_error := fun _ _ _ =>
       Some (py "FileNotFoundError",
             py "[Errno 2] No such file or directory: 'node'");
     os_child := fun _ _ _ _ => Hangs |}.

(** More outputs: a reply that is an array; a reply with a [null]
    error beside a result; the answers of the two tools behind
    [GET /status], and of a tool that answers with a list. *)
Definition array_reply : bytes := py "[1, 2]".
Definition null_error_reply : bytes :=
  dq "{'error':null,'result':{'content':[{'text':'{\'ok\':true}'}]}}".
Definition agents_reply : bytes :=
  dq "{'result':{'content':[{'text':'{\'agents\':[\'a1\'],\'totalAgents\':1}'}]}}".
Definition metrics_reply : bytes :=
  dq "{'result':{'content':[{'text':'{\'swarmStats\':{\'tasks\':3}}'}]}}".
Definition list_reply : bytes :=
  dq "{'result':{'content':[{'text':'[]'}]}}".

(** An operating system on which every spawn succeeds, the first
    child behaves as [first] and every later one as [later]. *)
Definition behaving (first later : child_behaviour) : OS :=
  {| os_spawn_error := fun _ _ _ => None;
     os_child := fun pid _ _ _ =>
       match pid with
       | O => first
       | S _ => later
       end |}.

(** Output that is not UTF-8. *)
Definition latin1_reply : bytes := [0xe9%N].

(** An operating system on which the spawn itself times out, as it
    may when [node] lies on a network file system. *)
Definition stalling : OS :=
  {| os_spawn_error := fun _ _ _ =>
       Some (py "TimeoutError", py "[Errno 110] Connection timed out");
     os_child := fun _ _ _ _ => Hangs |}.

(** Replies without an [error] member that are not of the expected
    shape: the first element of [content] is a number; the [text] is a
    number. *)
Definition number_content_reply : bytes :=
  dq "{'result':{'content':[5]}}".
Definition number_text_reply : bytes :=
  dq "{'result':{'content':[{'text':5}]}}".

(** The reply of the round trip after a line of log in Latin-1: the
    byte [0xe9] is not UTF-8. *)
Definition latin1_logged_reply : bytes :=
  py "caf" ++ [0xe9%N; 10%N] ++ echo_reply.
Definition latin1_logged_empty_reply : bytes :=
  py "d" ++ [0xe9%N] ++ py "marrage" ++ [10%N] ++ py "{}".

(** A call of [swarm_list_agents] without arguments, from an empty
    process table, on the reference runtime, against a child that
    behaves as [b]. *)
Definition run_with (b : child_behaviour) : Result value * World :=
  call_mcp_tool Ref.runtime (always b) root (py "swarm_list_agents") [] [].

(* ================================================================== *)
(** * Vocabulary for the theorems                                      *)
(* ================================================================== *)

(** What the child of a call started in table [w] does: [None] when no
    child gets its request, because the spawn is refused or the request
    cannot be encoded. *)
Definition child_run (rt : Runtime) (os : OS) (VEGAMCP_PATH : pystr)
    (tool_name : pystr) (arguments : dict) (w : World)
  : option child_behaviour :=
  let argv := [py "node"; VEGAMCP_SERVER VEGAMCP_PATH] in
  match os_spawn_error os (length w) argv VEGAMCP_PATH with
  | Some _ => None
  | None =>
      match encode (json_dumps rt (request tool_name arguments)) with
      | Return request_bytes =>
          Some (os_child os (length w) argv VEGAMCP_PATH request_bytes)
      | Raise _ => None
      end
  end.

(** The table entry of a call's child: started as [node] on the
    server's entry point, in the installation root. *)
Definition child_entry (VEGAMCP_PATH : pystr) (written : list bytes)
    (closed : bool) (st : proc_status) : process :=
  {| argv := [py "node"; VEGAMCP_SERVER VEGAMCP_PATH];
     cwd := VEGAMCP_PATH;
     stdin_written := written;
     stdin_closed := closed;
     status := st |}.

(** The child exits before the 30 seconds are over. *)
Definition timely (b : child_behaviour) : bool :=
  match b with
  | Exits t _ _ _ => negb (Qle_bool 30 t)
  | Hangs => false
  end.

(** A string neither starts nor ends with whitespace. *)
Definition trimmed (x : pystr) : Prop := lstrip x = x /\ rstrip x = x.

(** The first and the last character of a string, when it has any, are
    not whitespace. *)
Definition visible_ends (x : pystr) : bool :=
  match x with
  | [] => true
  | c :: r => negb (isspace c) && negb (isspace (last r c))
  end.

(** [entry] is [piece] without the whitespace around it: [piece] is
    [entry] between two runs of whitespace, and [entry] neither starts
    nor ends with whitespace. *)
Definition stripped_of (piece entry : pystr) : Prop :=
  exists before after,
    piece = before ++ entry ++ after
    /\ blank before = true /\ blank after = true
    /\ visible_ends entry = true.

(* ================================================================== *)
(** * Theorems                                                         *)
(* ================================================================== *)

(** ** The process table *)

Lemma nth_error_snoc (w : World) (p : process) :
  nth_error (w ++ [p]) (length w) = Some p.
Proof.
  rewrite nth_error_app2 by lia. now rewrite Nat.sub_diag.
Qed.

Lemma set_nth_snoc (w : World) (p q : process) :
  set_nth (w ++ [p]) (length w) q = w ++ [q].
Proof.
  unfold set_nth.
  rewrite firstn_app, Nat.sub_diag, firstn_all, skipn_app, Nat.sub_diag.
  rewrite skipn_all. simpl. now rewrite app_nil_r.
Qed.

(** ** Strings *)

Lemma split_nonempty sep x : split sep x <> [].
Proof.
  destruct x as [| c r]; simpl; [discriminate |].
  destruct (N.eqb c sep); [discriminate |].
  destruct (split sep r); discriminate.
Qed.

Lemma split_length sep x :
  length (split sep x) = S (count_occ N.eq_dec x sep).
Proof.
  induction x as [| c r IH]; simpl; [reflexivity |].
  destruct (N.eqb_spec c sep) as [-> | Hc].
  - destruct (N.eq_dec sep sep); [| contradiction]. simpl. now rewrite IH.
  - destruct (N.eq_dec c sep); [contradiction |].
    destruct (split sep r); simpl in *; [discriminate IH | exact IH].
Qed.

Lemma join_split sep x : join [sep] (split sep x) = x.
Proof.
  induction x as [| c r IH]; simpl; [reflexivity |].
  pose proof (split_nonempty sep r) as Hne.
  destruct (N.eqb_spec c sep) as [-> | Hc].
  - destruct (split sep r) as [| h t]; [contradiction |].
    simpl in *. now rewrite IH.
  - destruct (split sep r) as [| h t]; [contradiction |].
    destruct t; simpl in *; now rewrite <- IH.
Qed.

Lemma split_no_sep sep x : Forall (fun seg => ~ In sep seg) (split sep x).
Proof.
  induction x as [| c r IH]; simpl.
  - constructor; [intros [] | constructor].
  - destruct (N.eqb_spec c sep) as [-> | Hc].
    + constructor; [intros [] | exact IH].
    + destruct (split sep r) as [| h t]; [repeat constructor; intros [? | []]; congruence |].
      inversion IH; subst. constructor; [| assumption].
      intros [? | ?]; [congruence | contradiction].
Qed.

Lemma split_without_sep sep x : ~ In sep x -> split sep x = [x].
Proof.
  induction x as [| c r IH]; simpl; [reflexivity |].
  intros H. destruct (N.eqb_spec c sep) as [-> | Hc]; [tauto |].
  rewrite IH by tauto. reflexivity.
Qed.

(** The last line of a text is what follows its last newline. *)
Lemma last_split_app sep a b d :
  last (split sep (a ++ sep :: b)) d = last (split sep b) d.
Proof.
  induction a as [| c a IH]; simpl.
  - rewrite N.eqb_refl. pose proof (split_nonempty sep b).
    destruct (split sep b); [contradiction | reflexivity].
  - pose proof (split_length sep (a ++ sep :: b)) as Hl.
    rewrite count_occ_app in Hl. simpl in Hl.
    destruct (N.eq_dec sep sep); [| contradiction].
    destruct (N.eqb c sep).
    + destruct (split sep (a ++ sep :: b)) as [| h t]; [discriminate | exact IH].
    + destruct (split sep (a ++ sep :: b)) as [| h [| h' t]];
        [discriminate | simpl in Hl; lia |].
      exact IH.
Qed.

Lemma lstrip_idempotent x : lstrip (lstrip x) = lstrip x.
Proof.
  induction x as [| c r IH]; simpl; [reflexivity |].
  destruct (isspace c) eqn:E; [exact IH |]. simpl. now rewrite E.
Qed.

Lemma rstrip_idempotent x : rstrip (rstrip x) = rstrip x.
Proof.
  induction x as [| c r IH]; simpl; [reflexivity |].
  destruct (rstrip r) as [| y ys] eqn:E.
  - destruct (isspace c) eqn:Ec; simpl; [reflexivity | now rewrite Ec].
  - change (rstrip (c :: y :: ys)) with
      (match rstrip (y :: ys) with
       | [] => if isspace c then [] else [c]
       | r' => c :: r'
       end).
    now rewrite IH.
Qed.

Lemma rstrip_lstrip x : rstrip x = x -> rstrip (lstrip x) = lstrip x.
Proof.
  induction x as [| c r IH]; simpl; [reflexivity |].
  destruct (isspace c) eqn:Ec.
  - intros H. apply IH.
    destruct (rstrip r) as [| y ys]; [discriminate H | now injection H].
  - intros H. simpl. rewrite Ec. exact H.
Qed.

Lemma strip_trimmed x : trimmed (strip x).
Proof.
  split; unfold strip.
  - apply lstrip_idempotent.
  - apply rstrip_lstrip, rstrip_idempotent.
Qed.

Lemma blank_app a b : blank (a ++ b) = blank a && blank b.
Proof. apply forallb_app. Qed.

Lemma rstrip_blank t : blank t = true -> rstrip t = [].
Proof.
  induction t as [| c r IH]; simpl; [reflexivity |].
  intros H. apply andb_true_iff in H as [Hc Hr]. now rewrite IH, Hc.
Qed.

Lemma rstrip_nil_blank t : rstrip t = [] -> blank t = true.
Proof.
  induction t as [| c r IH]; simpl; [reflexivity |].
  destruct (rstrip r); [| discriminate].
  destruct (isspace c); [| discriminate]. intros _. now rewrite IH.
Qed.

Lemma rstrip_app_blank x t : blank t = true -> rstrip (x ++ t) = rstrip x.
Proof.
  intros H. induction x as [| c r IH]; simpl; [now apply rstrip_blank |].
  now rewrite IH.
Qed.

Lemma rstrip_app_fixed a l : l <> [] -> rstrip l = l -> rstrip (a ++ l) = a ++ l.
Proof.
  intros Hne H. induction a as [| c a IH]; simpl; [exact H |].
  rewrite IH. destruct (a ++ l) eqn:E; [| reflexivity].
  apply app_eq_nil in E as [_ ?]. contradiction.
Qed.

(** A text is its [rstrip] followed by whitespace. *)
Lemma rstrip_tail x : exists t, x = rstrip x ++ t /\ blank t = true.
Proof.
  induction x as [| c r (t & E & B)]; [now exists [] |].
  simpl. destruct (rstrip r) as [| y ys] eqn:Er.
  - simpl in E. subst r. destruct (isspace c) eqn:Ec.
    + exists (c :: t). simpl. now rewrite Ec.
    + now exists t.
  - exists t. split; [| exact B]. simpl. f_equal. exact E.
Qed.

Lemma lstrip_app_blank pre l : blank pre = true -> lstrip (pre ++ l) = lstrip l.
Proof.
  induction pre as [| c r IH]; simpl; [reflexivity |].
  intros H. apply andb_true_iff in H as [-> Hr]. now apply IH.
Qed.

Lemma lstrip_app_nonblank pre l :
  blank pre = false -> lstrip (pre ++ l) = lstrip pre ++ l.
Proof.
  induction pre as [| c r IH]; simpl; [discriminate |].
  destruct (isspace c); simpl; [exact IH | reflexivity].
Qed.

Lemma lstrip_no_sep sep l : ~ In sep l -> ~ In sep (lstrip l).
Proof.
  induction l as [| c r IH]; simpl; [tauto |].
  destruct (isspace c); simpl; tauto.
Qed.

Lemma rstrip_no_sep sep l : ~ In sep l -> ~ In sep (rstrip l).
Proof.
  induction l as [| c r IH]; simpl; [tauto |].
  intros H. destruct (rstrip r) as [| y ys].
  - destruct (isspace c); simpl; tauto.
  - simpl in *. tauto.
Qed.

(** The line [call_mcp_tool] parses, for an output cut into the lines
    before ([pre], empty or ending in a newline), a run [l] without
    newline that ends in a visible character, and trailing whitespace
    [t]. *)
Lemma reply_line_of_parts pre l t :
  (pre = [] \/ exists q, pre = q ++ [10%N]) ->
  ~ In 10%N l -> l <> [] -> rstrip l = l -> blank t = true ->
  reply_line (pre ++ l ++ t) = if blank pre then lstrip l else l.
Proof.
  intros Hpre Hnl Hne Hfix Ht. unfold reply_line, strip.
  rewrite app_assoc, rstrip_app_blank, rstrip_app_fixed by assumption.
  destruct (blank pre) eqn:B.
  - rewrite lstrip_app_blank by assumption.
    rewrite split_without_sep by now apply lstrip_no_sep. reflexivity.
  - rewrite lstrip_app_nonblank by assumption.
    destruct Hpre as [-> | (q & ->)]; [discriminate B |].
    rewrite blank_app in B. simpl in B. rewrite andb_true_r in B.
    rewrite lstrip_app_nonblank by assumption.
    rewrite <- app_assoc. simpl. rewrite last_split_app.
    now rewrite split_without_sep.
Qed.


Lemma last_cons {A} (x : A) (l : list A) d : last (x :: l) d = last l x.
Proof.
  revert x d. induction l as [| y l IH]; intros x d; [reflexivity |].
  change (last (x :: y :: l) d) with (last (y :: l) d).
  now rewrite (IH y d), (IH y x).
Qed.

Lemma last_cons_In {A} (x : A) (l : list A) : In (last l x) (x :: l).
Proof.
  revert x. induction l as [| y l IH]; intros x; [now left |].
  rewrite last_cons. right. apply IH.
Qed.

(** A text, seen as its lines joined by newlines, splits around its
    last non-blank line. *)
Lemma lines_around_last_nonblank (ls : list pystr) :
  ls <> [] ->
  match filter (fun l => negb (blank l)) ls with
  | [] => blank (join [10%N] ls) = true
  | l1 :: rest =>
      exists pre t,
        join [10%N] ls = pre ++ rstrip (last rest l1) ++ t
        /\ blank t = true
        /\ (pre = [] \/ exists q, pre = q ++ [10%N])
        /\ blank pre = (length (l1 :: rest) =? 1)%nat
  end.
Proof.
  induction ls as [| l0 ls IH]; [contradiction |]. intros _.
  destruct ls as [| l1 ls].
  - simpl. destruct (blank l0) eqn:B; simpl; [reflexivity |].
    destruct (rstrip_tail l0) as (t & E & Bt).
    exists [], t. now repeat split; [| | left].
  - specialize (IH ltac:(discriminate)).
    change (join [10%N] (l0 :: l1 :: ls))
      with (l0 ++ [10%N] ++ join [10%N] (l1 :: ls)).
    change (filter (fun l => negb (blank l)) (l0 :: l1 :: ls))
      with (if negb (blank l0)
            then l0 :: filter (fun l => negb (blank l)) (l1 :: ls)
            else filter (fun l => negb (blank l)) (l1 :: ls)).
    destruct (filter (fun l => negb (blank l)) (l1 :: ls)) as [| m rest].
    + destruct (blank l0) eqn:B; simpl negb; cbv iota.
      * rewrite !blank_app, B, IH. reflexivity.
      * destruct (rstrip_tail l0) as (t & E & Bt).
        exists [], (t ++ [10%N] ++ join [10%N] (l1 :: ls)).
        repeat split; [| | now left].
        -- simpl. rewrite app_assoc, <- E. reflexivity.
        -- rewrite !blank_app, Bt, IH. reflexivity.
    + destruct IH as (pre & t & E & Bt & Hpre & Bpre).
      assert (Hend : exists q, l0 ++ [10%N] ++ pre = q ++ [10%N]).
      { destruct Hpre as [-> | (q & ->)].
        - exists l0. now rewrite app_nil_r.
        - exists (l0 ++ [10%N] ++ q). now rewrite <- !app_assoc. }
      destruct (blank l0) eqn:B; simpl negb; cbv iota;
        exists (l0 ++ [10%N] ++ pre), t.
      * repeat split; [| assumption | now right |].
        -- rewrite E, <- !app_assoc. reflexivity.
        -- rewrite !blank_app, B, Bpre. reflexivity.
      * repeat split; [| assumption | now right |].
        -- rewrite last_cons, E, <- !app_assoc. reflexivity.
        -- rewrite !blank_app, B. reflexivity.
Qed.

(** The line parsed, in terms of the last non-blank line of the
    output: its trailing whitespace is removed, and its leading
    whitespace too when no other line is non-blank. *)
Lemma reply_line_last_nonempty out_text l :
  spec_last_nonempty_line out_text = Some l ->
  reply_line out_text
  = if (length (nonblank_lines out_text) =? 1)%nat then strip l else rstrip l.
Proof.
  unfold spec_last_nonempty_line, nonblank_lines.
  pose proof (lines_around_last_nonblank (split_nonempty 10 out_text)) as D.
  pose proof (split_no_sep 10 out_text) as Hnl.
  destruct (filter _ (split 10 out_text)) as [| l1 rest] eqn:F; [discriminate |].
  intros [= <-]. destruct D as (pre & t & E & Bt & Hpre & Bpre).
  rewrite join_split in E.
  assert (Hin : In (last rest l1) (split 10 out_text) /\ blank (last rest l1) = false).
  { pose proof (last_cons_In l1 rest) as Hl. rewrite <- F in Hl.
    apply filter_In in Hl as [? ?]. now rewrite <- negb_true_iff. }
  destruct Hin as [Hin Hnb].
  rewrite Forall_forall in Hnl. specialize (Hnl _ Hin).
  rewrite <- Bpre. rewrite E at 1.
  apply reply_line_of_parts; try assumption.
  - now apply rstrip_no_sep.
  - intros Hnil. apply rstrip_nil_blank in Hnil. congruence.
  - apply rstrip_idempotent.
Qed.

Lemma reply_line_all_blank out_text :
  spec_last_nonempty_line out_text = None -> reply_line out_text = [].
Proof.
  unfold spec_last_nonempty_line, nonblank_lines.
  pose proof (lines_around_last_nonblank (split_nonempty 10 out_text)) as D.
  destruct (filter _ (split 10 out_text)); [| discriminate]. intros _.
  rewrite join_split in D. unfold reply_line, strip.
  now rewrite rstrip_blank.
Qed.

Lemma lstrip_length x : length (lstrip x) <= length x.
Proof.
  induction x as [| c r IH]; simpl; [lia |].
  destruct (isspace c); simpl; lia.
Qed.

(** A text that starts with a visible character still does once its
    trailing whitespace is removed. *)
Lemma lstrip_rstrip_fixed l : lstrip l = l -> lstrip (rstrip l) = rstrip l.
Proof.
  destruct l as [| c r]; [reflexivity |]. simpl.
  destruct (isspace c) eqn:Ec.
  - intros H. pose proof (lstrip_length r) as Hl. rewrite H in Hl.
    simpl in Hl. lia.
  - intros _. destruct (rstrip r); simpl; now rewrite Ec.
Qed.

Lemma open_nodes_name_list_length names :
  length (open_nodes_name_list names) = S (count_occ N.eq_dec names 44%N).
Proof.
  unfold open_nodes_name_list. now rewrite length_map, split_length.
Qed.

(** ** Stripping, by what it removes *)

Lemma lstrip_split x : exists before, x = before ++ lstrip x /\ blank before = true.
Proof.
  induction x as [| c r (a & E & B)]; [now exists [] |]. simpl.
  destruct (isspace c) eqn:Ec.
  - exists (c :: a). simpl. rewrite Ec, B. split; [now rewrite <- E | reflexivity].
  - now exists [].
Qed.

Lemma lstrip_head x c r : lstrip x = c :: r -> isspace c = false.
Proof.
  induction x as [| c' r' IH]; simpl; [discriminate |].
  destruct (isspace c') eqn:Ec; [exact IH |]. now intros [= <- _].
Qed.

Lemma rstrip_split x : exists after, x = rstrip x ++ after /\ blank after = true.
Proof.
  induction x as [| c r (b & E & B)]; [now exists [] |]. simpl.
  destruct (rstrip r) as [| y ys] eqn:R.
  - pose proof (rstrip_nil_blank r R) as Br.
    destruct (isspace c) eqn:Ec.
    + exists (c :: r). simpl. now rewrite Ec, Br.
    + now exists r.
  - exists b. split; [| exact B]. simpl. f_equal. exact E.
Qed.

Lemma rstrip_last x : forall c r, rstrip x = c :: r -> isspace (last r c) = false.
Proof.
  induction x as [| c' r' IH]; intros c r; simpl; [discriminate |].
  destruct (rstrip r') as [| y ys].
  - destruct (isspace c') eqn:Ec; [discriminate |]. now intros [= <- <-].
  - intros [= <- <-]. rewrite last_cons. now apply IH.
Qed.

Lemma last_app_cons {A} (a : list A) c r d : last (a ++ c :: r) d = last r c.
Proof.
  induction a as [| x a IH]; simpl app; [apply last_cons |].
  rewrite last_cons. destruct a; simpl app in *; [apply last_cons |].
  rewrite last_cons in IH. rewrite <- IH. now rewrite last_cons.
Qed.

(** [strip] removes the whitespace around a string, and nothing else:
    what is left, if anything, starts and ends with a visible
    character. *)
Lemma strip_stripped_of x : stripped_of x (strip x).
Proof.
  unfold stripped_of, strip.
  destruct (rstrip_split x) as (b & Ex & Bb).
  destruct (lstrip_split (rstrip x)) as (a & Er & Ba).
  exists a, b. split; [| split; [exact Ba | split; [exact Bb |]]].
  - rewrite app_assoc, <- Er. exact Ex.
  - destruct (lstrip (rstrip x)) as [| c r] eqn:L; [reflexivity |].
    simpl. rewrite (lstrip_head _ L). simpl.
    destruct (rstrip x) as [| c' r'] eqn:R; [destruct a; discriminate |].
    pose proof (rstrip_last x R) as H.
    assert (E : last r c = last r' c').
    { rewrite <- (last_app_cons a c r c'), <- Er. now rewrite last_cons. }
    now rewrite E, H.
Qed.

(** ** Decoding *)

(** [bytes.decode] raises nothing but [UnicodeDecodeError]. *)
Lemma decode_from_raises fuel : forall pos b e,
  decode_from fuel pos b = Raise e ->
  exists msg, e = Exception (py "UnicodeDecodeError") msg.
Proof.
  induction fuel as [| fuel IH]; intros pos b e; destruct b as [| b0 r];
    simpl; try discriminate.
  destruct (utf8_next b0 r) as [c rest | width reason |].
  - destruct (decode_from fuel _ rest) eqn:D; [| discriminate].
    intros [= <-]. eapply IH, D.
  - intros [= <-]. unfold UnicodeDecodeError. eauto.
  - intros [= <-]. unfold UnicodeDecodeError. eauto.
Qed.

Lemma decode_raises b e :
  decode b = Raise e -> exists msg, e = Exception (py "UnicodeDecodeError") msg.
Proof. apply decode_from_raises. Qed.

Section Facts.

Variable rt : Runtime.
Variable os : OS.
Variable VEGAMCP_PATH : pystr.

Local Abbreviation call := (call_mcp_tool rt os VEGAMCP_PATH).
Local Abbreviation run := (child_run rt os VEGAMCP_PATH).
Local Abbreviation entry := (child_entry VEGAMCP_PATH).

(** What the [except] clauses make of a refused spawn: the timeout
    error when the refusal is a [TimeoutError], and the text of the
    [OSError] otherwise. *)
Lemma http_error_OSError cls msg :
  http_error rt (OSError cls msg)
  = if pystr_eqb cls (py "TimeoutError")
    then HTTPException 504 (JStr (py "VegaMCP request timed out"))
    else HTTPException 500 (JStr msg).
Proof. unfold OSError. now destruct (pystr_eqb cls (py "TimeoutError")). Qed.

(** The call, path by path. *)
Lemma call_spawn_refused tool args w cls msg :
  os_spawn_error os (length w) [py "node"; VEGAMCP_SERVER VEGAMCP_PATH]
    VEGAMCP_PATH = Some (cls, msg) ->
  call tool args w = (Raise (http_error rt (OSError cls msg)), w).
Proof.
  intros H. unfold call_mcp_tool, try_except, call_mcp_tool_try, bind,
    create_subprocess_exec.
  now rewrite H.
Qed.

Lemma call_not_encodable tool args w e :
  os_spawn_error os (length w) [py "node"; VEGAMCP_SERVER VEGAMCP_PATH]
    VEGAMCP_PATH = None ->
  encode (json_dumps rt (request tool args)) = Raise e ->
  call tool args w
  = (Raise (http_error rt e), w ++ [entry [] false Running]).
Proof.
  intros H E. unfold call_mcp_tool, try_except, call_mcp_tool_try, bind,
    create_subprocess_exec, lift.
  now rewrite H, E.
Qed.

Lemma run_inv tool args w b :
  run tool args w = Some b ->
  exists request_bytes,
    os_spawn_error os (length w) [py "node"; VEGAMCP_SERVER VEGAMCP_PATH]
      VEGAMCP_PATH = None
    /\ encode (json_dumps rt (request tool args)) = Return request_bytes
    /\ os_child os (length w) [py "node"; VEGAMCP_SERVER VEGAMCP_PATH]
         VEGAMCP_PATH request_bytes = b.
Proof.
  unfold child_run.
  destruct (os_spawn_error _ _ _ _); [discriminate |].
  destruct (encode _) as [e | bs]; [discriminate |].
  intros [= <-]. now exists bs.
Qed.

Lemma call_exits tool args w t rc out err :
  run tool args w = Some (Exits t rc out err) ->
  timely (Exits t rc out err) = true ->
  exists request_bytes,
    encode (json_dumps rt (request tool args)) = Return request_bytes
    /\ call tool args w
       = (caught rt (parse_response rt (Some rc) out err),
          w ++ [entry [request_bytes] true (Exited rc)]).
Proof.
  intros R T. apply run_inv in R as (bs & H & E & C).
  exists bs. split; [exact E |].
  simpl in T. apply negb_true_iff in T.
  unfold call_mcp_tool, try_except, call_mcp_tool_try, bind,
    create_subprocess_exec, lift, wait_for, communicate, returncode.
  rewrite H, E, nth_error_snoc. cbn [argv cwd stdin_written status].
  rewrite C, T, !set_nth_snoc, nth_error_snoc. cbn [app status].
  unfold caught, raise.
  now destruct (parse_response rt (Some rc) out err).
Qed.

Lemma call_times_out tool args w b :
  run tool args w = Some b ->
  timely b = false ->
  exists request_bytes,
    encode (json_dumps rt (request tool args)) = Return request_bytes
    /\ call tool args w
       = (Raise (HTTPException 504 (JStr (py "VegaMCP request timed out"))),
          w ++ [entry [request_bytes] true Running]).
Proof.
  intros R T. apply run_inv in R as (bs & H & E & C).
  exists bs. split; [exact E |].
  unfold call_mcp_tool, try_except, call_mcp_tool_try, bind,
    create_subprocess_exec, lift, wait_for, communicate.
  rewrite H, E, nth_error_snoc. cbn [argv cwd stdin_written status].
  rewrite C. destruct b as [t rc out err |]; simpl in T.
  - apply negb_false_iff in T. rewrite T, set_nth_snoc. reflexivity.
  - rewrite set_nth_snoc. reflexivity.
Qed.

(** ** Reading the reply *)

Lemma parse_response_nonzero rc out err :
  rc <> 0%Z ->
  parse_response rt (Some rc) out err
  = (err_text <-- decode err ;;
     Raise (HTTPException 500
              (JStr (py "VegaMCP error: " ++ firstn 500 err_text)))).
Proof.
  intros H. unfold parse_response. destruct rc; [contradiction | | ]; reflexivity.
Qed.

Lemma parse_response_zero out err :
  parse_response rt (Some 0%Z) out err
  = (out_text <-- decode out ;;
     response <-- json_loads rt (reply_line out_text) ;;
     extract_result rt response).
Proof. reflexivity. Qed.

(** A reply with an [error] member: the [HTTPException] raised with
    the member's value is caught by the last [except] clause and
    replaced by one that carries its [str]. *)
Lemma extract_result_error o payload :
  lookup (py "error") o = Some payload ->
  caught rt (extract_result rt (JObject o))
  = Raise (HTTPException 500 (JStr (str_HTTPException rt 500 payload))).
Proof.
  intros H. unfold extract_result. simpl. now rewrite H.
Qed.

(** C5. When the child has not exited within the 30 seconds, whatever
    it may have written, the call raises the 504 error "VegaMCP request
    timed out": the HTTP status is 504 and there is no result. *)
Theorem timeout_gives_504 tool args w b :
  run tool args w = Some b ->
  timely b = false ->
  fst (call tool args w)
  = Raise (HTTPException 504 (JStr (py "VegaMCP request timed out")))
  /\ fst (respond (fst (call tool args w))) = 504%Z
  /\ forall v, fst (call tool args w) <> Return v.
Proof.
  intros R T. destruct (call_times_out _ _ _ R T) as (bs & _ & ->).
  simpl. repeat split. discriminate.
Qed.

(** C6. When the child exits in time with a non-zero status, the call
    raises a 500 error and returns no result. Its message is the [str]
    of the exception raised in the [try] block, whose detail is
    "VegaMCP error: " followed by the first 500 characters, at most, of
    the decoded error stream. *)
Theorem nonzero_exit_gives_500 tool args w t rc out err :
  run tool args w = Some (Exits t rc out err) ->
  timely (Exits t rc out err) = true ->
  rc <> 0%Z ->
  exists msg,
    fst (call tool args w) = Raise (HTTPException 500 (JStr msg))
    /\ fst (respond (fst (call tool args w))) = 500%Z
    /\ forall err_text, decode err = Return err_text ->
       exists excerpt,
         excerpt = firstn 500 err_text
         /\ length excerpt <= 500
         /\ msg = str_HTTPException rt 500
                    (JStr (py "VegaMCP error: " ++ excerpt)).
Proof.
  intros R T Hrc. destruct (call_exits _ _ _ R T) as (bs & _ & ->).
  rewrite parse_response_nonzero by assumption. cbn [fst].
  destruct (decode err) as [e | err_text] eqn:D; cbn [and_then caught].
  - (* the error stream is not UTF-8 *)
    destruct (decode_raises _ D) as (msg & ->).
    exists msg. repeat split. discriminate.
  - eexists. repeat split.
    intros ? [= <-]. eexists. repeat split.
    apply firstn_le_length.
Qed.

(** C4, as amended. With its request written, the child of a call is
    the one entry the call adds to the process table. When the child
    exits by itself within the 30 seconds, it has exited when the call
    ends, whatever the call then returns or raises; when it does not,
    the call raises the 504 error and leaves the child running: the
    bridge terminates nothing. *)
Theorem child_exits_or_is_left_running tool args w b :
  run tool args w = Some b ->
  exists p,
    snd (call tool args w) = w ++ [p]
    /\ (forall t rc out err,
          b = Exits t rc out err -> timely b = true ->
          status p = Exited rc)
    /\ (timely b = false ->
        status p = Running
        /\ fst (call tool args w)
           = Raise (HTTPException 504 (JStr (py "VegaMCP request timed out")))).
Proof.
  intros R. destruct (timely b) eqn:T.
  - destruct b as [t rc out err |]; [| discriminate].
    destruct (call_exits _ _ _ R T) as (bs & _ & ->).
    eexists. split; [reflexivity |]. split; [| discriminate].
    now intros ? ? ? ? [= _ <- _ _] _.
  - destruct (call_times_out _ _ _ R T) as (bs & _ & ->).
    eexists. split; [reflexivity |]. split; [| now split].
    intros ? ? ? ? _ [=].
Qed.

(** The table after a call whose child got its request. *)
Lemma call_appends_one tool args w b :
  run tool args w = Some b ->
  exists request_bytes st,
    encode (json_dumps rt (request tool args)) = Return request_bytes
    /\ snd (call tool args w) = w ++ [entry [request_bytes] true st].
Proof.
  intros R. destruct (timely b) eqn:T.
  - destruct b as [t rc out err |]; [| discriminate].
    destruct (call_exits _ _ _ R T) as (bs & E & ->). now exists bs, (Exited rc).
  - destruct (call_times_out _ _ _ R T) as (bs & E & ->). now exists bs, Running.
Qed.

(** C7. A call whose spawn the operating system accepts adds exactly
    one process to the table, started as [node] on the server's entry
    point in the installation root; exactly one message is written to
    its standard input, the serialised envelope, and the input is then
    closed. The envelope has [jsonrpc] "2.0", [id] 1, [method]
    "tools/call" and [params] made of the tool name and the arguments.
    The processes already in the table are left as they were, and so
    is this one by any later call, which adds its own. *)
Theorem one_process_one_envelope tool args w b :
  run tool args w = Some b ->
  exists request_bytes p,
    snd (call tool args w) = w ++ [p]
    /\ argv p = [py "node"; VEGAMCP_SERVER VEGAMCP_PATH]
    /\ cwd p = VEGAMCP_PATH
    /\ encode (json_dumps rt (request tool args)) = Return request_bytes
    /\ stdin_written p = [request_bytes]
    /\ stdin_closed p = true
    /\ request tool args
       = JObject [(py "jsonrpc", JStr (py "2.0"));
                  (py "id", JNum 1);
                  (py "method", JStr (py "tools/call"));
                  (py "params", JObject [(py "name", JStr tool);
                                         (py "arguments", JObject args)])]
    /\ forall tool' args' b',
         run tool' args' (w ++ [p]) = Some b' ->
         exists p', snd (call tool' args' (w ++ [p])) = w ++ [p; p'].
Proof.
  intros R. destruct (call_appends_one _ _ _ R) as (bs & st & E & ->).
  exists bs. eexists. repeat split; try reflexivity; [exact E |].
  intros tool' args' b' R'.
  destruct (call_appends_one _ _ _ R') as (bs' & st' & _ & ->).
  rewrite <- app_assoc. now eexists.
Qed.

(** A reply without an [error] member, of the expected shape. *)
Lemma extract_result_well_shaped o :
  json_loads rt (py "{}") = Return (JObject []) ->
  lookup (py "error") o = None ->
  well_shaped o = true ->
  extract_result rt (JObject o) = loads rt (spec_nested_text o).
Proof.
  intros Hempty He Hs. unfold extract_result, well_shaped, spec_nested_text in *.
  simpl. rewrite He. simpl.
  destruct (lookup (py "result") o) as [[| | | | | | r] |];
    try discriminate; simpl.
  - destruct (lookup (py "content") r) as [c |]; simpl; [| reflexivity].
    destruct (truthy c) eqn:Tc; simpl in Hs.
    + destruct c as [| | | | | [| [] ?] |]; try discriminate.
      simpl. now destruct (lookup (py "text") d).
    + destruct c as [| | | | | [| ? ?] |]; try discriminate;
        simpl; now rewrite Hempty.
  - reflexivity.
Qed.

(** C1, as amended. Let the child exit within the 30 seconds with
    status zero, let its output be UTF-8, and let the last line of the
    output parse to a JSON object without an [error] member, in which
    [result], when present, is an object and its [content], when
    present and truthy, is an array whose first element is an object.
    Then the call ends as parsing the nested text ends (the [text]
    member of that first element, or the literal [{}] when there is
    none). The value parsed is returned. A text that is not valid JSON,
    on which the parser raises [JSONDecodeError] with message [m],
    gives the 500 error "Invalid response from VegaMCP: m". Any other
    failure gives a 500 error with the text of the exception alone:
    another exception of the parser (a [ValueError] for an integer of
    more than 4300 digits), or the [TypeError] for a text that is not a
    string. Whatever the failure, the status is 500. The parser is
    assumed to read [{}] as the empty object; and a failure is one of
    parsing, so not a [TimeoutError]. *)
Theorem tool_result_is_parsed_nested_text tool args w t out err out_text o :
  json_loads rt (py "{}") = Return (JObject []) ->
  run tool args w = Some (Exits t 0 out err) ->
  timely (Exits t 0 out err) = true ->
  decode out = Return out_text ->
  json_loads rt (reply_line out_text) = Return (JObject o) ->
  lookup (py "error") o = None ->
  well_shaped o = true ->
  fst (call tool args w) = caught rt (loads rt (spec_nested_text o))
  /\ (forall x v,
        spec_nested_text o = JStr x -> json_loads rt x = Return v ->
        fst (call tool args w) = Return v)
  /\ (forall x m,
        spec_nested_text o = JStr x ->
        json_loads rt x = Raise (JSONDecodeError m) ->
        fst (call tool args w)
        = Raise (HTTPException 500
                   (JStr (py "Invalid response from VegaMCP: " ++ m))))
  /\ (forall x cls m,
        spec_nested_text o = JStr x ->
        json_loads rt x = Raise (Exception cls m) ->
        fst (call tool args w) = Raise (HTTPException 500 (JStr m)))
  /\ ((forall x, spec_nested_text o <> JStr x) ->
      fst (call tool args w)
      = Raise (HTTPException 500
                 (JStr (py "the JSON object must be str, bytes or bytearray, not "
                        ++ type_name (spec_nested_text o)))))
  /\ (forall e,
        loads rt (spec_nested_text o) = Raise e -> e <> TimeoutError ->
        fst (respond (fst (call tool args w))) = 500%Z).
Proof.
  intros Hempty R T D P He Hs.
  destruct (call_exits _ _ _ R T) as (bs & _ & ->). cbn [fst].
  rewrite parse_response_zero, D. cbn [and_then]. rewrite P. cbn [and_then].
  rewrite (extract_result_well_shaped _ Hempty He Hs).
  split; [reflexivity |]. split; [| split; [| split; [| split]]].
  - intros x v -> L. simpl. now rewrite L.
  - intros x m -> L. simpl. now rewrite L.
  - intros x cls m -> L. simpl. now rewrite L.
  - intros N. destruct (spec_nested_text o) as [| | | | x | |];
      try reflexivity. now destruct (N x).
  - intros e -> Ne. destruct e; [now destruct Ne | reflexivity ..].
Qed.

(** The remote error, in general: the call raises a 500 error whose
    detail is a string, the [str] of the exception that carried the
    payload. *)
Lemma remote_error_detail tool args w t out err out_text o payload :
  run tool args w = Some (Exits t 0 out err) ->
  timely (Exits t 0 out err) = true ->
  decode out = Return out_text ->
  json_loads rt (reply_line out_text) = Return (JObject o) ->
  lookup (py "error") o = Some payload ->
  fst (call tool args w)
  = Raise (HTTPException 500 (JStr (str_HTTPException rt 500 payload))).
Proof.
  intros R T D P He.
  destruct (call_exits _ _ _ R T) as (bs & _ & ->). cbn [fst].
  rewrite parse_response_zero, D. cbn [and_then]. rewrite P. cbn [and_then].
  now apply extract_result_error.
Qed.

(** ** Validation *)

(** C8. A body of [POST /tasks] whose [priority] member does not
    convert to an integer between 0 and 3 is answered with status 422,
    and the process table is left as it was: the bridge is not called
    and no child is spawned. *)
Theorem priority_out_of_range_is_422 d v w :
  lookup (py "priority") d = Some v ->
  (forall n, as_int rt v = Some n -> (n < 0 \/ 3 < n)%Z) ->
  fst (fst (post_tasks rt os VEGAMCP_PATH (JObject d) w)) = 422%Z
  /\ snd (post_tasks rt os VEGAMCP_PATH (JObject d) w) = w.
Proof.
  intros L H. unfold post_tasks, validate_CreateTaskRequest.
  assert (P : exists e,
             field d (py "priority") (Some 2%Z) (as_int rt)
               (fun n => (0 <=? n)%Z && (n <=? 3)%Z) = inl e).
  { unfold field. rewrite L. destruct (as_int rt v) as [n |]; [| eauto].
    destruct (H n eq_refl) as [Hn | Hn].
    - replace (0 <=? n)%Z with false by (symmetry; apply Z.leb_gt; lia).
      simpl. eauto.
    - replace (n <=? 3)%Z with false by (symmetry; apply Z.leb_gt; lia).
      rewrite andb_false_r. simpl. eauto. }
  destruct P as (e & ->).
  destruct (field d (py "task_type") _ _ _); split; reflexivity.
Qed.

(** ** The last line *)

(** C2, as amended. When the child exits within the 30 seconds with
    status zero and its output is UTF-8, the text parsed as the reply
    is the last line of the output stripped of whitespace at both ends.
    With [l] the last line of the output that is not blank, that text
    is [l] without its trailing whitespace, and without its leading
    whitespace as well when no other line is non-blank; so it is [l]
    without its trailing whitespace, whatever the earlier lines are,
    whenever [l] starts with a visible character. An output of blank
    lines only gives the empty text. The call ends as parsing that text
    and reading the reply end: a text that is not valid JSON, on which
    the parser raises [JSONDecodeError] with message [m], gives the 500
    error "Invalid response from VegaMCP: m", and another exception of
    the parser a 500 error with its text alone. So two calls end alike
    when their outputs, both UTF-8, have the same last non-blank line
    and it starts with a visible character: the earlier lines do not
    matter. *)
Theorem last_line_is_the_reply tool args w t out err out_text :
  run tool args w = Some (Exits t 0 out err) ->
  timely (Exits t 0 out err) = true ->
  decode out = Return out_text ->
  (forall l,
     spec_last_nonempty_line out_text = Some l ->
     reply_line out_text
     = (if (length (nonblank_lines out_text) =? 1)%nat
        then strip l else rstrip l)
     /\ (lstrip l = l -> reply_line out_text = rstrip l))
  /\ (spec_last_nonempty_line out_text = None -> reply_line out_text = [])
  /\ fst (call tool args w)
     = caught rt (response <-- json_loads rt (reply_line out_text) ;;
                  extract_result rt response)
  /\ (forall m,
        json_loads rt (reply_line out_text) = Raise (JSONDecodeError m) ->
        fst (call tool args w)
        = Raise (HTTPException 500
                   (JStr (py "Invalid response from VegaMCP: " ++ m))))
  /\ (forall cls m,
        json_loads rt (reply_line out_text) = Raise (Exception cls m) ->
        fst (call tool args w) = Raise (HTTPException 500 (JStr m)))
  /\ (forall tool' args' w' t' out' err' out_text' l,
        run tool' args' w' = Some (Exits t' 0 out' err') ->
        timely (Exits t' 0 out' err') = true ->
        decode out' = Return out_text' ->
        spec_last_nonempty_line out_text = Some l ->
        spec_last_nonempty_line out_text' = Some l ->
        lstrip l = l ->
        fst (call tool' args' w') = fst (call tool args w)).
Proof.
  intros R T D.
  assert (Hline : forall text l,
             spec_last_nonempty_line text = Some l -> lstrip l = l ->
             reply_line text = rstrip l).
  { intros text l Hl Hfix. rewrite (reply_line_last_nonempty _ Hl).
    destruct (length (nonblank_lines text) =? 1)%nat; [| reflexivity].
    unfold strip. now apply lstrip_rstrip_fixed. }
  destruct (call_exits _ _ _ R T) as (bs & _ & ->). cbn [fst].
  rewrite parse_response_zero, D. cbn [and_then].
  split; [| split; [| split; [| split; [| split]]]].
  - intros l Hl. rewrite (reply_line_last_nonempty _ Hl).
    split; [reflexivity |]. intros Hfix.
    rewrite <- (reply_line_last_nonempty _ Hl). now apply Hline.
  - apply reply_line_all_blank.
  - reflexivity.
  - intros m ->. reflexivity.
  - intros cls m ->. reflexivity.
  - intros tool' args' w' t' out' err' out_text' l R' T' D' Hl Hl' Hfix.
    destruct (call_exits _ _ _ R' T') as (bs' & _ & ->). cbn [fst].
    rewrite parse_response_zero, D'. cbn [and_then].
    now rewrite (Hline _ _ Hl Hfix), (Hline _ _ Hl' Hfix).
Qed.

(** ** Arguments built by the routes *)

(** C9. [GET /memory/nodes] calls the tool [open_nodes] with the one
    argument [names]: the comma-separated pieces of the query
    parameter, in order, each without the whitespace around it. Piece
    by piece, the piece is its entry between two runs of whitespace,
    and the entry neither starts nor ends with whitespace: leading and
    trailing whitespace are both removed, and nothing else is. There
    is one entry per piece, one more than there are commas, so that an
    empty or blank piece stays in the list as the empty string. For
    [a,b, c] the list is [a], [b], [c]. *)
Theorem open_nodes_names names :
  open_nodes rt os VEGAMCP_PATH names
  = call (py "open_nodes")
      [(py "names", JArray (map JStr (open_nodes_name_list names)))]
  /\ join (py ",") (split 44 names) = names
  /\ Forall (fun piece => ~ In 44%N piece) (split 44 names)
  /\ Forall2 stripped_of (split 44 names) (open_nodes_name_list names)
  /\ length (open_nodes_name_list names) = S (count_occ N.eq_dec names 44%N)
  /\ (forall piece, In piece (split 44 names) -> blank piece = true ->
      In [] (open_nodes_name_list names))
  /\ open_nodes_name_list (py "a,b, c") = [py "a"; py "b"; py "c"]
  /\ open_nodes_name_list (py " a ,b  , c d ") = [py "a"; py "b"; py "c d"]
  /\ open_nodes_name_list (py "a,,b, ,") = [py "a"; []; py "b"; []; []].
Proof.
  split; [reflexivity |].
  split; [apply join_split |]. split; [apply split_no_sep |].
  split; [| split; [apply open_nodes_name_list_length |]].
  - unfold open_nodes_name_list.
    induction (split 44 names) as [| piece pieces IH]; constructor;
      [apply strip_stripped_of | exact IH].
  - split; [| repeat split; reflexivity].
    intros piece Hin Hb. unfold open_nodes_name_list.
    apply in_map_iff. exists piece. split; [| exact Hin].
    unfold strip. now rewrite rstrip_blank.
Qed.

(** C10. In each handler an optional string that is the empty string
    is dropped like one that was not given: the handler behaves as it
    does without the field, and the arguments it builds have no entry
    under the field's name. This holds for [coordinator] and [status]
    of [GET /agents] and [POST /broadcast], [target_agent] of
    [POST /tasks], [template] of [POST /workflows], and [domain] and
    [type] of [POST /memory/search]. *)
Theorem empty_string_is_omitted :
  (forall status,
     list_agents rt os VEGAMCP_PATH (Some []) status
     = list_agents rt os VEGAMCP_PATH None status
     /\ lookup (py "coordinator") (list_agents_args (Some []) status) = None)
  /\ (forall coordinator,
        list_agents rt os VEGAMCP_PATH coordinator (Some [])
        = list_agents rt os VEGAMCP_PATH coordinator None
        /\ lookup (py "status") (list_agents_args coordinator (Some [])) = None)
  /\ (forall message status,
        let request := fun x => BroadcastRequest.Build_t message x status in
        broadcast_message rt os VEGAMCP_PATH (request (Some []))
        = broadcast_message rt os VEGAMCP_PATH (request None)
        /\ lookup (py "coordinator")
             (broadcast_message_args (request (Some []))) = None)
  /\ (forall message coordinator,
        let request := fun x => BroadcastRequest.Build_t message coordinator x in
        broadcast_message rt os VEGAMCP_PATH (request (Some []))
        = broadcast_message rt os VEGAMCP_PATH (request None)
        /\ lookup (py "status")
             (broadcast_message_args (request (Some []))) = None)
  /\ (forall task_type priority input_data timeout,
        let request := fun x =>
          CreateTaskRequest.Build_t task_type priority input_data x timeout in
        create_task rt os VEGAMCP_PATH (request (Some []))
        = create_task rt os VEGAMCP_PATH (request None)
        /\ lookup (py "target_agent")
             (create_task_args (request (Some []))) = None)
  /\ (forall custom_workflow input priority,
        let request := fun x =>
          WorkflowRequest.Build_t x custom_workflow input priority in
        execute_workflow rt os VEGAMCP_PATH (request (Some []))
        = execute_workflow rt os VEGAMCP_PATH (request None)
        /\ lookup (py "template")
             (execute_workflow_args (request (Some []))) = None)
  /\ (forall query type limit,
        let request := fun x => MemorySearchRequest.Build_t query x type limit in
        search_memory rt os VEGAMCP_PATH (request (Some []))
        = search_memory rt os VEGAMCP_PATH (request None)
        /\ lookup (py "domain")
             (search_memory_args (request (Some []))) = None)
  /\ (forall query domain limit,
        let request := fun x => MemorySearchRequest.Build_t query domain x limit in
        search_memory rt os VEGAMCP_PATH (request (Some []))
        = search_memory rt os VEGAMCP_PATH (request None)
        /\ lookup (py "type")
             (search_memory_args (request (Some []))) = None).
Proof.
  split; [| split; [| split; [| split; [| split; [| split; [| split]]]]]].
  - intros [[| c x] |]; split; reflexivity.
  - intros [[| c x] |]; split; reflexivity.
  - intros message [[| c x] |] request; split; reflexivity.
  - intros message [[| c x] |] request; split; reflexivity.
  - intros task_type priority input_data timeout request; split; reflexivity.
  - intros [[| kv d] |] input priority request; split; reflexivity.
  - intros query [[| c x] |] limit request; split; reflexivity.
  - intros query [[| c x] |] limit request; split; reflexivity.
Qed.

End Facts.

(* ================================================================== *)
(** * Runs on the reference runtime                                    *)
(* ================================================================== *)

(** The round trip of the specification: the echoed reply yields
    [{"ok": true}]. *)
Lemma round_trip :
  fst (run_with (Exits quick 0 echo_reply [])) = Return (JObject [(py "ok", JBool true)]).
Proof.
  refine (proj1 (proj2
    (tool_result_is_parsed_nested_text Ref.runtime (always _) root
       (py "swarm_list_agents") [] [] (t := quick) (out := echo_reply)
       (err := []) (out_text := echo_reply)
       (o := [(py "result",
               JObject [(py "content",
                         JArray [JObject [(py "text", JStr (dq "{'ok':true}"))]])])])
       _ _ _ _ _ _ _)) (dq "{'ok':true}") _ _ _);
    vm_compute; reflexivity.
Defined.

(** C1 fails as stated, on each of these outputs of a child that
    exits with status zero.
    - A reply whose [result] is [null] is a JSON object without an
      [error] member and has no nested text, so that the empty object
      should be returned; the call raises a 500 error instead, with the
      text of an [AttributeError].
    - So does a reply whose [content] starts with a number.
    - A nested text that is the number 5 fails to parse, with a
      [TypeError]; the 500 error carries its text alone, not the
      message for an invalid response.
    - After a line of log in Latin-1 the last line is still the reply
      of the round trip, but the output as a whole is not UTF-8: the
      call raises a 500 error with the text of the
      [UnicodeDecodeError], where the reply alone yields
      [{"ok": true}].
    - The reply of the round trip from a child that exits after 45
      seconds is not returned: the call has timed out. *)
Lemma nested_text_is_not_always_returned :
  (exists o,
     decode null_reply = Return null_reply
     /\ Ref.json_loads (reply_line null_reply) = Return (JObject o)
     /\ lookup (py "error") o = None
     /\ caught Ref.runtime (loads Ref.runtime (spec_nested_text o))
        = Return (JObject [])
     /\ fst (run_with (Exits quick 0 null_reply []))
        = Raise (HTTPException 500
                   (JStr (py "'NoneType' object has no attribute 'get'"))))
  /\ (exists o,
        decode number_content_reply = Return number_content_reply
        /\ Ref.json_loads (reply_line number_content_reply) = Return (JObject o)
        /\ lookup (py "error") o = None
        /\ fst (run_with (Exits quick 0 number_content_reply []))
           = Raise (HTTPException 500
                      (JStr (py "'int' object has no attribute 'get'"))))
  /\ (exists o,
        decode number_text_reply = Return number_text_reply
        /\ Ref.json_loads (reply_line number_text_reply) = Return (JObject o)
        /\ lookup (py "error") o = None
        /\ spec_nested_text o = JNum 5
        /\ fst (run_with (Exits quick 0 number_text_reply []))
           = Raise (HTTPException 500
                      (JStr (py "the JSON object must be str, bytes or bytearray, not int"))))
  /\ (last (split 10 latin1_logged_reply) [] = echo_reply
      /\ fst (run_with (Exits quick 0 echo_reply []))
         = Return (JObject [(py "ok", JBool true)])
      /\ fst (run_with (Exits quick 0 latin1_logged_reply []))
         = Raise (HTTPException 500
                    (JStr (py "'utf-8' codec can't decode byte 0xe9 in position 3: invalid continuation byte"))))
  /\ fst (run_with (Exits 45 0 echo_reply []))
     = Raise (HTTPException 504 (JStr (py "VegaMCP request timed out"))).
Proof.
  split; [| split; [| split; [| split]]].
  - exists [(py "jsonrpc", JStr (py "2.0")); (py "id", JNum 1);
            (py "result", JNull)].
    split; [| split; [| split; [| split]]]; vm_compute; reflexivity.
  - exists [(py "result", JObject [(py "content", JArray [JNum 5])])].
    split; [| split; [| split]]; vm_compute; reflexivity.
  - exists [(py "result",
             JObject [(py "content", JArray [JObject [(py "text", JNum 5)]])])].
    split; [| split; [| split; [| split]]]; vm_compute; reflexivity.
  - split; [| split]; vm_compute; reflexivity.
  - vm_compute. reflexivity.
Qed.

(** A reply after a line of log is read as if it stood alone. *)
Lemma logged_reply_is_read :
  reply_line logged_echo_reply = echo_reply
  /\ fst (run_with (Exits quick 0 logged_echo_reply []))
     = Return (JObject [(py "ok", JBool true)]).
Proof.
  assert (R : child_run Ref.runtime (always (Exits quick 0 logged_echo_reply []))
                root (py "swarm_list_agents") [] []
              = Some (Exits quick 0 logged_echo_reply []))
    by (vm_compute; reflexivity).
  assert (T : timely (Exits quick 0 logged_echo_reply []) = true)
    by reflexivity.
  assert (D : decode logged_echo_reply = Return logged_echo_reply)
    by (vm_compute; reflexivity).
  assert (L : spec_last_nonempty_line logged_echo_reply = Some echo_reply)
    by (vm_compute; reflexivity).
  destruct (last_line_is_the_reply _ _ _ _ _ _ R T D) as (H1 & _ & H3 & _).
  destruct (H1 _ L) as [_ H]. split.
  - rewrite H by (vm_compute; reflexivity). vm_compute. reflexivity.
  - unfold run_with. rewrite H3. vm_compute. reflexivity.
Defined.

(** C2 fails as stated, on these outputs of a child that exits with
    status zero.
    - Two outputs have the same last non-empty line, a form feed
      followed by [{}], which is not JSON. Alone, it is stripped to
      [{}] and the call returns the empty object; after a line of log
      the form feed stays, and the call raises the 500 error for an
      invalid response.
    - The reply [{}] alone yields the empty object; after a line of
      log in Latin-1 the last line is the same, but the output as a
      whole is not UTF-8, and the call raises a 500 error with the text
      of the [UnicodeDecodeError].
    - A line of 4301 digits fails to parse, with a [ValueError]; the
      500 error carries its text alone, not the message for an invalid
      response.
    - The reply [{}] from a child that exits after 45 seconds is not
      read: the call has timed out. *)
Lemma earlier_line_changes_the_result :
  (decode form_feed_reply = Return form_feed_reply
   /\ decode logged_form_feed_reply = Return logged_form_feed_reply
   /\ spec_last_nonempty_line form_feed_reply = Some form_feed_reply
   /\ spec_last_nonempty_line logged_form_feed_reply = Some form_feed_reply
   /\ Ref.json_loads form_feed_reply
      = Raise (JSONDecodeError
                 (py "Expecting value: line 1 column 1 (char 0)"))
   /\ fst (run_with (Exits quick 0 form_feed_reply [])) = Return (JObject [])
   /\ fst (run_with (Exits quick 0 logged_form_feed_reply []))
      = Raise (HTTPException 500
                 (JStr (py "Invalid response from VegaMCP: Expecting value: line 1 column 1 (char 0)"))))
  /\ (last (split 10 latin1_logged_empty_reply) [] = py "{}"
      /\ fst (run_with (Exits quick 0 (py "{}") [])) = Return (JObject [])
      /\ fst (run_with (Exits quick 0 latin1_logged_empty_reply []))
         = Raise (HTTPException 500
                    (JStr (py "'utf-8' codec can't decode byte 0xe9 in position 1: invalid continuation byte"))))
  /\ (decode (repeat 49%N 4301) = Return (repeat 49%N 4301)
      /\ reply_line (repeat 49%N 4301) = repeat 49%N 4301
      /\ fst (run_with (Exits quick 0 (repeat 49%N 4301) []))
         = Raise (HTTPException 500
                    (JStr (py "Exceeds the limit (4300 digits) for integer string conversion: value has 4301 digits; use sys.set_int_max_str_digits() to increase the limit"))))
  /\ fst (run_with (Exits 45 0 (py "{}") []))
     = Raise (HTTPException 504 (JStr (py "VegaMCP request timed out"))).
Proof.
  split; [| split; [| split]].
  - repeat split; vm_compute; reflexivity.
  - split; [| split]; vm_compute; reflexivity.
  - split; [| split]; vm_compute; reflexivity.
  - vm_compute. reflexivity.
Qed.

(** C3. On the error reply the call raises a 500 error whose detail is
    not the server's error object but a string: the status and the
    Python [repr] of the object, as [str] prints the exception that the
    [try] block raised with it. *)
Theorem remote_error_is_stringified :
  decode error_reply = Return error_reply
  /\ Ref.json_loads (reply_line error_reply)
     = Return (JObject [(py "jsonrpc", JStr (py "2.0"));
                        (py "id", JNum 1);
                        (py "error",
                         JObject [(py "code", JNum (-32601));
                                  (py "message", JStr (py "Method not found"))])])
  /\ fst (run_with (Exits quick 0 error_reply []))
     = Raise (HTTPException 500
                (JStr (py "500: {'code': -32601, 'message': 'Method not found'}")))
  /\ fst (run_with (Exits quick 0 error_reply []))
     <> Raise (HTTPException 500
                 (JObject [(py "code", JNum (-32601));
                           (py "message", JStr (py "Method not found"))])).
Proof.
  split; [| split; [| split]]; vm_compute; try reflexivity. discriminate.
Qed.

(** C4 fails as stated: after the call has failed with the timeout
    error, the child it spawned is still in the table, running. *)
Lemma timed_out_child_keeps_running :
  run_with Hangs
  = (Raise (HTTPException 504 (JStr (py "VegaMCP request timed out"))),
     [child_entry root [list_agents_request] true Running]).
Proof. vm_compute. reflexivity. Qed.

(** A child that replies in time has exited when the call returns. *)
Lemma replying_child_has_exited :
  exists p,
    snd (run_with (Exits quick 0 echo_reply [])) = [p]
    /\ status p = Exited 0.
Proof.
  assert (R : child_run Ref.runtime (always (Exits quick 0 echo_reply []))
                root (py "swarm_list_agents") [] []
              = Some (Exits quick 0 echo_reply []))
    by (vm_compute; reflexivity).
  destruct (child_exits_or_is_left_running _ _ _ _ _ _ R) as (p & E & Hex & _).
  exists p. split; [exact E |].
  apply (Hex _ _ _ _ eq_refl). reflexivity.
Defined.

(** A child that has the whole reply ready, but exits after 45
    seconds: the call times out, and nothing of the reply is
    returned. *)
Lemma slow_child_times_out :
  fst (run_with (Exits 45 0 echo_reply []))
  = Raise (HTTPException 504 (JStr (py "VegaMCP request timed out")))
  /\ fst (respond (fst (run_with (Exits 45 0 echo_reply [])))) = 504%Z
  /\ forall v, fst (run_with (Exits 45 0 echo_reply [])) <> Return v.
Proof.
  apply (timeout_gives_504 Ref.runtime (always _) root (py "swarm_list_agents")
           [] [] (b := Exits 45 0 echo_reply []));
    vm_compute; reflexivity.
Defined.

(** A child that exits with status 1 after writing to its error
    stream. *)
Lemma failing_child_gives_500 :
  fst (run_with (Exits quick 1 [] (py "Error: Cannot find module")))
  = Raise (HTTPException 500
             (JStr (py "500: VegaMCP error: Error: Cannot find module"))).
Proof.
  assert (R : child_run Ref.runtime
                (always (Exits quick 1 [] (py "Error: Cannot find module")))
                root (py "swarm_list_agents") [] []
              = Some (Exits quick 1 [] (py "Error: Cannot find module")))
    by (vm_compute; reflexivity).
  assert (T : timely (Exits quick 1 [] (py "Error: Cannot find module")) = true)
    by reflexivity.
  assert (D : decode (py "Error: Cannot find module")
              = Return (py "Error: Cannot find module"))
    by (vm_compute; reflexivity).
  destruct (nonzero_exit_gives_500 _ _ _ _ _ _ R T ltac:(discriminate))
    as (msg & E & _ & H).
  destruct (H _ D) as (excerpt & -> & _ & ->).
  unfold run_with. rewrite E. vm_compute. reflexivity.
Defined.

(** The one process of a call and the one message it is sent. *)
Lemma list_agents_spawns_one :
  exists p,
    snd (run_with (Exits quick 0 echo_reply [])) = [p]
    /\ stdin_written p = [list_agents_request]
    /\ stdin_closed p = true.
Proof.
  assert (R : child_run Ref.runtime (always (Exits quick 0 echo_reply []))
                root (py "swarm_list_agents") [] []
              = Some (Exits quick 0 echo_reply []))
    by (vm_compute; reflexivity).
  destruct (one_process_one_envelope _ _ _ _ _ _ R)
    as (bs & p & E & _ & _ & Henc & Hw & Hc & _).
  exists p. split; [exact E |]. split; [| exact Hc].
  rewrite Hw. vm_compute in Henc. injection Henc as <-.
  vm_compute. reflexivity.
Defined.

(** The request of the specification: priority 5 is refused, and no
    process is spawned. *)
Lemma priority_5_is_refused :
  let body := JObject [(py "task_type", JStr (py "research"));
                       (py "priority", JNum 5)] in
  fst (fst (post_tasks Ref.runtime (always Hangs) root body [])) = 422%Z
  /\ snd (post_tasks Ref.runtime (always Hangs) root body []) = [].
Proof.
  apply priority_out_of_range_is_422 with (v := JNum 5).
  - reflexivity.
  - intros n [= <-]. right. lia.
Defined.

(* ================================================================== *)
(** * Further properties of the bridge                                 *)
(* ================================================================== *)

(** ** Which exceptions the steps raise *)

Lemma encode_from_raises x : forall pos e,
  encode_from pos x = Raise e ->
  exists msg, e = Exception (py "UnicodeEncodeError") msg.
Proof.
  induction x as [| c r IH]; intros pos e; simpl; [discriminate |].
  destruct (encode_char c).
  - destruct (encode_from (S pos) r) eqn:E; [| discriminate].
    intros [= <-]. eapply IH, E.
  - intros [= <-]. eauto.
Qed.

Lemma pystr_eqb_eq a b : pystr_eqb a b = true <-> a = b.
Proof.
  revert b. induction a as [| x a IH]; intros [| y b]; simpl;
    try (split; discriminate); [tauto |].
  rewrite andb_true_iff, N.eqb_eq, IH.
  split; [intros [-> ->]; reflexivity | intros [= -> ->]; tauto].
Qed.

Lemma http_error_status rt e :
  exists status msg,
    http_error rt e = HTTPException status (JStr msg)
    /\ (status = 504%Z <-> e = TimeoutError)
    /\ (status = 500%Z \/ status = 504%Z).
Proof.
  destruct e; simpl; do 2 eexists; (split; [reflexivity |]);
    split; try (now left); try (now right); split; intros; try discriminate;
    reflexivity.
Qed.

Lemma contains_raises key v e :
  contains key v = Raise e -> exists cls msg, e = Exception cls msg.
Proof. destruct v; simpl; intros [= <-]; eauto. Qed.

Lemma getitem_raises v key e :
  getitem v key = Raise e -> exists cls msg, e = Exception cls msg.
Proof.
  destruct v; simpl; try (intros [= <-]; eauto).
  destruct (lookup key d); intros [= <-]; eauto.
Qed.

Lemma get_raises v key default e :
  get v key default = Raise e -> exists cls msg, e = Exception cls msg.
Proof. destruct v; simpl; intros [= <-]; eauto. Qed.

Lemma getitem0_raises v e :
  getitem0 v = Raise e -> exists cls msg, e = Exception cls msg.
Proof.
  destruct v as [| | | | [| ? ?] | [| ? ?] |]; simpl; intros [= <-]; eauto.
Qed.

(** Reading a parsed reply raises [TimeoutError] only if the parser
    does. *)
Lemma extract_result_not_timeout rt response :
  (forall x, json_loads rt x <> Raise TimeoutError) ->
  extract_result rt response <> Raise TimeoutError.
Proof.
  intros H. unfold extract_result.
  destruct (contains (py "error") response) as [e | has_error] eqn:C;
    cbn [and_then].
  { destruct (contains_raises _ _ C) as (? & ? & ->). discriminate. }
  destruct has_error.
  { destruct (getitem response (py "error")) as [e | payload] eqn:G;
      cbn [and_then]; [| discriminate].
    destruct (getitem_raises _ _ G) as (? & ? & ->). discriminate. }
  destruct (get response (py "result") (JObject [])) as [e | result] eqn:G1;
    cbn [and_then].
  { destruct (get_raises _ _ _ G1) as (? & ? & ->). discriminate. }
  destruct (get result (py "content") (JArray [JObject []]))
    as [e | content] eqn:G2; cbn [and_then].
  { destruct (get_raises _ _ _ G2) as (? & ? & ->). discriminate. }
  destruct (truthy content); [| discriminate].
  destruct (getitem0 content) as [e | first] eqn:G3; cbn [and_then].
  { destruct (getitem0_raises _ G3) as (? & ? & ->). discriminate. }
  destruct (get first (py "text") (JStr (py "{}"))) as [e | text] eqn:G4;
    cbn [and_then].
  { destruct (get_raises _ _ _ G4) as (? & ? & ->). discriminate. }
  destruct text; simpl; try discriminate. apply H.
Qed.

Lemma parse_response_not_timeout rt rc out err :
  (forall x, json_loads rt x <> Raise TimeoutError) ->
  parse_response rt rc out err <> Raise TimeoutError.
Proof.
  intros H. unfold parse_response.
  destruct (match rc with Some 0%Z => false | _ => true end).
  - destruct (decode err) as [e |] eqn:D; cbn [and_then]; [| discriminate].
    destruct (decode_raises _ D) as (m & ->). discriminate.
  - destruct (decode out) as [e |] eqn:D; cbn [and_then].
    + destruct (decode_raises _ D) as (m & ->). discriminate.
    + destruct (json_loads rt (reply_line a)) eqn:L; cbn [and_then].
      * intros [= ->]. now apply H in L.
      * now apply extract_result_not_timeout.
Qed.

Section MoreFacts.

Variable rt : Runtime.
Variable os : OS.
Variable VEGAMCP_PATH : pystr.

Local Abbreviation call := (call_mcp_tool rt os VEGAMCP_PATH).
Local Abbreviation run := (child_run rt os VEGAMCP_PATH).
Local Abbreviation entry := (child_entry VEGAMCP_PATH).
Local Abbreviation spawn_error w :=
  (os_spawn_error os (length w) [py "node"; VEGAMCP_SERVER VEGAMCP_PATH]
     VEGAMCP_PATH).

(** The call, in one equation per way it can go. *)
Lemma call_cases tool args w :
  (exists cls msg,
     spawn_error w = Some (cls, msg)
     /\ call tool args w = (Raise (http_error rt (OSError cls msg)), w))
  \/ (exists e,
        spawn_error w = None
        /\ encode (json_dumps rt (request tool args)) = Raise e
        /\ call tool args w
           = (Raise (http_error rt e), w ++ [entry [] false Running]))
  \/ (exists b request_bytes,
        spawn_error w = None
        /\ run tool args w = Some b /\ timely b = false
        /\ call tool args w
           = (Raise (HTTPException 504 (JStr (py "VegaMCP request timed out"))),
              w ++ [entry [request_bytes] true Running]))
  \/ (exists t rc out err request_bytes,
        spawn_error w = None
        /\ run tool args w = Some (Exits t rc out err)
        /\ timely (Exits t rc out err) = true
        /\ call tool args w
           = (caught rt (parse_response rt (Some rc) out err),
              w ++ [entry [request_bytes] true (Exited rc)])).
Proof.
  destruct (spawn_error w) as [[cls msg] |] eqn:S.
  - left. exists cls, msg. split; [reflexivity |].
    eapply call_spawn_refused, S.
  - right. destruct (encode (json_dumps rt (request tool args))) as [e | bs] eqn:E.
    + left. exists e. repeat split; try assumption.
      now apply call_not_encodable.
    + right.
      assert (R : run tool args w
                  = Some (os_child os (length w)
                            [py "node"; VEGAMCP_SERVER VEGAMCP_PATH]
                            VEGAMCP_PATH bs)).
      { unfold child_run. now rewrite S, E. }
      destruct (timely (os_child os (length w)
                          [py "node"; VEGAMCP_SERVER VEGAMCP_PATH]
                          VEGAMCP_PATH bs)) eqn:T.
      * right. destruct (os_child os _ _ _ bs) as [t rc out err |] eqn:C;
          [| discriminate].
        destruct (call_exits _ _ _ _ _ _ R T) as (bs' & _ & Hc).
        exists t, rc, out, err, bs'.
        split; [reflexivity |]. split; [exact R |]. split; [exact T | exact Hc].
      * left. destruct (call_times_out _ _ _ _ _ _ R T) as (bs' & _ & Hc).
        eexists _, bs'.
        split; [reflexivity |]. split; [exact R |]. split; [exact T | exact Hc].
Qed.


(** X2. A call leaves every process that was in the table as it was
    and appends at most one; it appends none exactly when the
    operating system refuses the spawn. *)
Theorem call_adds_at_most_one_process tool args w :
  exists l,
    snd (call_mcp_tool rt os VEGAMCP_PATH tool args w) = w ++ l
    /\ length l <= 1
    /\ (l = [] <-> spawn_error w <> None).
Proof.
  destruct (call_cases tool args w)
    as [(cls & msg & S & ->)
       | [(e & S & _ & ->)
         | [(b & bs & S & _ & _ & ->) | (t & rc & out & err & bs & S & _ & _ & ->)]]];
    cbn [snd].
  - exists []. rewrite app_nil_r, S. repeat split; [simpl; lia | discriminate].
  - eexists. split; [reflexivity |]. rewrite S.
    split; [simpl; lia |]. split; [discriminate | congruence].
  - eexists. split; [reflexivity |]. rewrite S.
    split; [simpl; lia |]. split; [discriminate | congruence].
  - eexists. split; [reflexivity |]. rewrite S.
    split; [simpl; lia |]. split; [discriminate | congruence].
Qed.

(** X3. When the operating system refuses to start [node], nothing is
    spawned and the call raises at once. The error is the 500 error
    with the text of the [OSError], unless the refusal is a
    [TimeoutError] (the system call timed out): that one is caught by
    the first [except] clause, and the call raises the 504 error
    "VegaMCP request timed out" although no child has run. *)
Theorem refused_spawn_is_500_or_504 tool args w cls msg :
  spawn_error w = Some (cls, msg) ->
  snd (call_mcp_tool rt os VEGAMCP_PATH tool args w) = w
  /\ (cls <> py "TimeoutError" ->
      fst (call tool args w) = Raise (HTTPException 500 (JStr msg))
      /\ fst (respond (fst (call tool args w))) = 500%Z)
  /\ (cls = py "TimeoutError" ->
      fst (call tool args w)
      = Raise (HTTPException 504 (JStr (py "VegaMCP request timed out")))
      /\ fst (respond (fst (call tool args w))) = 504%Z).
Proof.
  intros S. erewrite call_spawn_refused by exact S. cbn [fst snd].
  rewrite http_error_OSError.
  split; [reflexivity |]. split.
  - intros N. destruct (pystr_eqb cls (py "TimeoutError")) eqn:E; [| now split].
    apply pystr_eqb_eq in E. contradiction.
  - intros ->. now split.
Qed.

(** X4. A value is returned only by a call whose child exited within
    the 30 seconds with status zero, whose output decoded, and whose
    last line parsed to a reply from which the value was read. *)
Theorem result_only_after_zero_exit tool args w v :
  fst (call tool args w) = Return v ->
  exists t out err out_text response,
    run tool args w = Some (Exits t 0 out err)
    /\ timely (Exits t 0 out err) = true
    /\ decode out = Return out_text
    /\ json_loads rt (reply_line out_text) = Return response
    /\ extract_result rt response = Return v.
Proof.
  destruct (call_cases tool args w)
    as [(cls & msg & _ & ->)
       | [(e & _ & _ & ->)
         | [(b & bs & _ & _ & _ & ->) | (t & rc & out & err & bs & _ & R & T & ->)]]];
    cbn [fst]; try discriminate.
  destruct (Z.eq_dec rc 0) as [-> | Hrc].
  - rewrite parse_response_zero.
    destruct (decode out) as [e | out_text] eqn:D; cbn [and_then caught];
      [discriminate |].
    destruct (json_loads rt (reply_line out_text)) as [e | response] eqn:L;
      cbn [and_then caught]; [discriminate |].
    destruct (extract_result rt response) as [e | v'] eqn:X;
      cbn [caught]; [discriminate |].
    intros [= <-]. exists t, out, err, out_text, response. tauto.
  - rewrite parse_response_nonzero by assumption.
    destruct (decode err); discriminate.
Qed.

(** X5. With a parser that raises no [TimeoutError] of its own, the
    answer has status 504 in two cases and no other: the spawn is
    refused with a [TimeoutError], or the child got its request and
    [communicate] had not completed when the 30 seconds were over. *)
Theorem status_504_iff_timeout tool args w :
  (forall x, json_loads rt x <> Raise TimeoutError) ->
  fst (respond (fst (call_mcp_tool rt os VEGAMCP_PATH tool args w))) = 504%Z
  <-> (exists msg, spawn_error w = Some (py "TimeoutError", msg))
      \/ (exists b, run tool args w = Some b /\ timely b = false).
Proof.
  intros H. split.
  - destruct (call_cases tool args w)
      as [(cls & msg & S & ->)
         | [(e & _ & E & ->)
           | [(b & bs & _ & R & T & ->) | (t & rc & out & err & bs & _ & R & T & ->)]]];
      cbn [fst].
    + rewrite http_error_OSError.
      destruct (pystr_eqb cls (py "TimeoutError")) eqn:Ec; [| discriminate].
      intros _. left. exists msg. apply pystr_eqb_eq in Ec. now subst cls.
    + unfold encode in E. destruct (encode_from_raises _ _ E) as (m & ->).
      discriminate.
    + intros _. right. now exists b.
    + pose proof (@parse_response_not_timeout rt (Some rc) out err H) as N.
      destruct (parse_response rt (Some rc) out err) as [e | v]; cbn [caught fst].
      * destruct (http_error_status rt e) as (status & msg & -> & Hs & _).
        cbn [fst respond json_compliant]. intros E504. apply Hs in E504.
        now rewrite E504 in N.
      * cbn [respond]. destruct (json_compliant v); discriminate.
  - intros [(msg & S) | (b & R & T)].
    + erewrite call_spawn_refused by exact S. reflexivity.
    + now destruct (call_times_out _ _ _ _ _ _ R T) as (bs & _ & ->).
Qed.

(** X6. A last line that is JSON but not an object (an array, a
    string, a number, [true], [false] or [null]) never yields a
    result: the call raises a 500 error with the text of the
    [TypeError] or [AttributeError] met on the way. *)
Theorem non_object_reply_is_500 tool args w t out err out_text response :
  run tool args w = Some (Exits t 0 out err) ->
  timely (Exits t 0 out err) = true ->
  decode out = Return out_text ->
  json_loads rt (reply_line out_text) = Return response ->
  (forall d, response <> JObject d) ->
  exists cls msg,
    extract_result rt response = Raise (Exception cls msg)
    /\ (cls = py "TypeError" \/ cls = py "AttributeError")
    /\ fst (call tool args w) = Raise (HTTPException 500 (JStr msg)).
Proof.
  intros R T D L N.
  destruct (call_exits _ _ _ _ _ _ R T) as (bs & _ & ->). cbn [fst].
  rewrite parse_response_zero, D. cbn [and_then]. rewrite L. cbn [and_then].
  unfold extract_result.
  destruct response as [| b | n | f | x | l | d]; cbn;
    try (do 2 eexists; split; [reflexivity |]; split; [now left | reflexivity]).
  - destruct (is_substring _ x);
      do 2 eexists; (split; [reflexivity |]); (split; [| reflexivity]);
      [now left | now right].
  - destruct (existsb _ l);
      do 2 eexists; (split; [reflexivity |]); (split; [| reflexivity]);
      [now left | now right].
  - now destruct (N d).
Qed.

(** X7. A reply with an [error] member never yields a result, whatever
    the member's value ([null] included) and whatever [result] the
    reply also has: the call raises a 500 error whose detail is the
    [str] of [HTTPException(500, detail=payload)]. *)
Theorem error_member_takes_precedence tool args w t out err out_text o payload :
  run tool args w = Some (Exits t 0 out err) ->
  timely (Exits t 0 out err) = true ->
  decode out = Return out_text ->
  json_loads rt (reply_line out_text) = Return (JObject o) ->
  lookup (py "error") o = Some payload ->
  fst (call tool args w)
  = Raise (HTTPException 500 (JStr (str_HTTPException rt 500 payload)))
  /\ forall v, fst (call tool args w) <> Return v.
Proof.
  intros R T D L E.
  destruct (call_exits _ _ _ _ _ _ R T) as (bs & _ & ->). cbn [fst].
  rewrite parse_response_zero, D. cbn [and_then]. rewrite L. cbn [and_then].
  rewrite (extract_result_error rt _ E). now split.
Qed.

(** X8. Output that is not UTF-8 is not reported as an invalid
    response: the [UnicodeDecodeError] is caught by the last [except]
    clause, and the 500 error carries its text alone. *)
Theorem undecodable_output_is_500 tool args w t out err e :
  run tool args w = Some (Exits t 0 out err) ->
  timely (Exits t 0 out err) = true ->
  decode out = Raise e ->
  exists msg,
    e = Exception (py "UnicodeDecodeError") msg
    /\ fst (call tool args w) = Raise (HTTPException 500 (JStr msg)).
Proof.
  intros R T D.
  destruct (call_exits _ _ _ _ _ _ R T) as (bs & _ & ->). cbn [fst].
  rewrite parse_response_zero, D. cbn [and_then].
  destruct (decode_raises _ D) as (msg & ->). now exists msg.
Qed.

(** X9. How a call ends depends on the exit status and on one stream
    only. Two calls whose children exit in time with status zero and
    the same standard output end alike, whatever was written to the
    error streams and however long the children took; with the same
    non-zero status and the same error stream they end alike whatever
    was written to the standard outputs. *)
Theorem unused_stream_is_ignored tool args w tool' args' w' t t' rc out out' err err' :
  run tool args w = Some (Exits t rc out err) ->
  run tool' args' w' = Some (Exits t' rc out' err') ->
  timely (Exits t rc out err) = true ->
  timely (Exits t' rc out' err') = true ->
  (if (rc =? 0)%Z then out = out' else err = err') ->
  fst (call tool args w) = fst (call tool' args' w').
Proof.
  intros R R' T T' H.
  destruct (call_exits _ _ _ _ _ _ R T) as (bs & _ & ->).
  destruct (call_exits _ _ _ _ _ _ R' T') as (bs' & _ & ->). cbn [fst].
  destruct (Z.eqb_spec rc 0) as [-> | Hrc].
  - rewrite !parse_response_zero. now subst.
  - rewrite !parse_response_nonzero by assumption. now subst.
Qed.

End MoreFacts.

(** ** The line that is parsed *)

Lemma rstrip_app_nonblank a x : rstrip x <> [] -> rstrip (a ++ x) = a ++ rstrip x.
Proof.
  intros H. induction a as [| c a IH]; simpl; [reflexivity |].
  rewrite IH. destruct (a ++ rstrip x) eqn:E; [| reflexivity].
  apply app_eq_nil in E as [_ ?]. contradiction.
Qed.

Lemma strip_app_blank a x b :
  blank a = true -> blank b = true -> strip (a ++ x ++ b) = strip x.
Proof.
  intros Ha Hb. unfold strip.
  rewrite app_assoc, rstrip_app_blank by assumption.
  destruct (rstrip x) eqn:E.
  - rewrite rstrip_blank; [reflexivity |].
    rewrite blank_app, Ha. now apply rstrip_nil_blank.
  - rewrite rstrip_app_nonblank, E by congruence.
    now apply lstrip_app_blank.
Qed.

Lemma lstrip_nil_blank x : lstrip x = [] -> blank x = true.
Proof.
  induction x as [| c r IH]; simpl; [reflexivity |].
  destruct (isspace c); [exact IH | discriminate].
Qed.

Lemma strip_nil_blank x : strip x = [] -> blank x = true.
Proof.
  unfold strip. intros H. apply rstrip_nil_blank.
  rewrite <- rstrip_idempotent. now apply rstrip_blank, lstrip_nil_blank.
Qed.

Lemma rstrip_fixed_tail c r : r <> [] -> rstrip (c :: r) = c :: r -> rstrip r = r.
Proof.
  simpl. destruct (rstrip r) as [| y ys] eqn:E.
  - destruct (isspace c); intros Hne [=]; congruence.
  - now intros _ [=].
Qed.

(** The last line of a text that ends in a visible character ends in
    it too. *)
Lemma last_line_of_trimmed x :
  x <> [] -> rstrip x = x ->
  last (split 10 x) [] <> [] /\ rstrip (last (split 10 x) []) = last (split 10 x) [].
Proof.
  induction x as [| c r IH]; [contradiction |]. intros _ Hfix.
  destruct r as [| c' r'].
  - simpl in Hfix. destruct (isspace c) eqn:Ec; [discriminate |].
    assert (c <> 10%N) by (intros ->; discriminate).
    simpl. destruct (N.eqb_spec c 10); [contradiction |].
    simpl. rewrite Ec. split; [discriminate | reflexivity].
  - assert (Hr : rstrip (c' :: r') = c' :: r')
      by (apply (rstrip_fixed_tail (c := c)); [discriminate | exact Hfix]).
    destruct (IH ltac:(discriminate) Hr) as [IHne IHfix].
    change (split 10 (c :: c' :: r'))
      with (if N.eqb c 10 then [] :: split 10 (c' :: r')
            else match split 10 (c' :: r') with
                 | h :: t => (c :: h) :: t
                 | [] => [[c]]
                 end).
    pose proof (split_nonempty 10 (c' :: r')) as Hs.
    destruct (split 10 (c' :: r')) as [| h t]; [contradiction |].
    destruct (N.eqb c 10).
    + change (last ([] :: h :: t) []) with (last (h :: t) []). now split.
    + destruct t as [| h' t].
      * simpl in *. destruct (rstrip h) eqn:E; [congruence |].
        split; [discriminate |]. now rewrite IHfix.
      * change (last ((c :: h) :: h' :: t) []) with (last (h' :: t) []).
        change (last (h :: h' :: t) []) with (last (h' :: t) []) in *.
        now split.
Qed.

(** X10. Whitespace and blank lines around the output change nothing:
    the line parsed is the same with and without them. *)
Theorem whitespace_around_output_is_ignored before out_text after :
  blank before = true -> blank after = true ->
  reply_line (before ++ out_text ++ after) = reply_line out_text.
Proof.
  intros Ha Hb. unfold reply_line. now rewrite strip_app_blank.
Qed.

(** X11. The text handed to the parser is one line without trailing
    whitespace: it has no newline, its last character is visible, and
    it is empty exactly when the whole output is blank. *)
Theorem reply_line_is_one_trimmed_line out_text :
  ~ In 10%N (reply_line out_text)
  /\ rstrip (reply_line out_text) = reply_line out_text
  /\ (reply_line out_text = [] <-> blank out_text = true).
Proof.
  unfold reply_line.
  assert (Hin : In (last (split 10 (strip out_text)) []) (split 10 (strip out_text))).
  { pose proof (split_nonempty 10 (strip out_text)) as Hs.
    destruct (split 10 (strip out_text)) as [| h t]; [contradiction |].
    rewrite last_cons. apply last_cons_In. }
  split.
  { pose proof (split_no_sep 10 (strip out_text)) as Hn.
    rewrite Forall_forall in Hn. now apply Hn. }
  destruct (strip out_text) as [| c r] eqn:E.
  - split; [reflexivity |]. split; [| reflexivity].
    intros _. now apply strip_nil_blank.
  - destruct (last_line_of_trimmed (x := c :: r)) as [Hne Hfix];
      [discriminate | rewrite <- E; apply strip_trimmed |].
    split; [exact Hfix |]. split; [contradiction |].
    intros B. unfold strip in E. rewrite rstrip_blank in E by assumption.
    discriminate.
Qed.

(** ** The status route *)

Section RouteFacts.

Variable rt : Runtime.
Variable os : OS.
Variable VEGAMCP_PATH : pystr.

Local Abbreviation call := (call_mcp_tool rt os VEGAMCP_PATH).
Local Abbreviation status_route := (get_swarm_status rt os VEGAMCP_PATH).

Lemma call_appends_at_most_one tool args w :
  exists l, snd (call tool args w) = w ++ l /\ length l <= 1.
Proof.
  destruct (call_cases rt os VEGAMCP_PATH tool args w)
    as [(cls & msg & _ & ->)
       | [(e & _ & _ & ->)
         | [(b & bs & _ & _ & _ & ->) | (t & rc & out & err & bs & _ & _ & _ & ->)]]];
    cbn [snd]; [exists []; rewrite app_nil_r | eexists | eexists | eexists];
    split; try reflexivity; simpl; lia.
Qed.

Lemma call_status tool args w :
  let st := fst (respond (fst (call tool args w))) in
  st = 200%Z \/ st = 500%Z \/ st = 504%Z.
Proof.
  unfold call_mcp_tool, try_except.
  destruct (call_mcp_tool_try rt os VEGAMCP_PATH tool args w) as [[e | v] w'].
  - destruct (http_error_status rt e) as (status & msg & E & _ & [-> | ->]);
      unfold raise; cbn [fst]; rewrite E; simpl; tauto.
  - cbn [fst respond]. destruct (json_compliant v); simpl; tauto.
Qed.

(** X12. When both tools answer with JSON objects, [GET /status]
    returns an object with exactly the entries [agents], [totalAgents],
    [stats] and [metricsSummary], in this order: the first two are read
    from the first answer, the last two from the members [swarmStats]
    and [metricsSummary] of the second, and the empty list, zero and
    the empty object stand for a member that is missing. *)
Theorem get_swarm_status_shape w w1 w2 agents metrics :
  call (py "swarm_list_agents") [] w = (Return (JObject agents), w1) ->
  call (py "swarm_get_metrics") [(py "summary", JBool true)] w1
  = (Return (JObject metrics), w2) ->
  status_route w
  = (Return
       (JObject
          [(py "agents",
            match lookup (py "agents") agents with
            | Some x => x | None => JArray [] end);
           (py "totalAgents",
            match lookup (py "totalAgents") agents with
            | Some x => x | None => JNum 0 end);
           (py "stats",
            match lookup (py "swarmStats") metrics with
            | Some x => x | None => JObject [] end);
           (py "metricsSummary",
            match lookup (py "metricsSummary") metrics with
            | Some x => x | None => JObject [] end)]),
     w2).
Proof.
  intros H1 H2. unfold get_swarm_status, bind. now rewrite H1, H2.
Qed.

(** X13. When the first call of [GET /status] raises, the second tool
    is not called: the route raises the same exception and leaves the
    process table as the first call left it. When the second call
    raises, the route raises what it raised. *)
Theorem get_swarm_status_stops_at_first_error w :
  (forall e w1,
     call (py "swarm_list_agents") [] w = (Raise e, w1) ->
     status_route w = (Raise e, w1))
  /\ (forall agents e w1 w2,
        call (py "swarm_list_agents") [] w = (Return agents, w1) ->
        call (py "swarm_get_metrics") [(py "summary", JBool true)] w1
        = (Raise e, w2) ->
        status_route w = (Raise e, w2)).
Proof.
  split.
  - intros e w1 H1. unfold get_swarm_status, bind. now rewrite H1.
  - intros agents e w1 w2 H1 H2. unfold get_swarm_status, bind.
    now rewrite H1, H2.
Qed.

(** X14. A tool answer that is not a JSON object is not caught by any
    handler in [GET /status]: once both calls are made, reading it
    raises an [AttributeError] that names the type of the first such
    answer, and FastAPI answers with a bare 500. *)
Theorem get_swarm_status_needs_objects w w1 w2 agents metrics :
  call (py "swarm_list_agents") [] w = (Return agents, w1) ->
  call (py "swarm_get_metrics") [(py "summary", JBool true)] w1
  = (Return metrics, w2) ->
  (forall a m, ~ (agents = JObject a /\ metrics = JObject m)) ->
  let culprit := match agents with JObject _ => metrics | _ => agents end in
  status_route w
  = (Raise (Exception (py "AttributeError")
              (py "'" ++ type_name culprit
               ++ py "' object has no attribute 'get'")), w2)
  /\ respond (fst (status_route w))
     = (500%Z, JStr (py "Internal Server Error")).
Proof.
  intros H1 H2 N. unfold get_swarm_status, bind. rewrite H1, H2.
  destruct agents as [| | | | | | a]; try (split; reflexivity).
  destruct metrics as [| | | | | | m]; try (split; reflexivity).
  destruct (N a m). now split.
Qed.

(** X15. [GET /status] leaves the processes that were in the table as
    they were and appends at most two. *)
Theorem get_swarm_status_spawns_at_most_two w :
  exists l,
    snd (get_swarm_status rt os VEGAMCP_PATH w) = w ++ l /\ length l <= 2.
Proof.
  unfold get_swarm_status, bind.
  destruct (call_appends_at_most_one (py "swarm_list_agents") [] w)
    as (l1 & E1 & L1).
  destruct (call (py "swarm_list_agents") [] w) as [[e | agents] w1];
    cbn [snd] in E1; subst w1.
  { exists l1. split; [reflexivity | lia]. }
  destruct (call_appends_at_most_one (py "swarm_get_metrics")
              [(py "summary", JBool true)] (w ++ l1)) as (l2 & E2 & L2).
  destruct (call (py "swarm_get_metrics") [(py "summary", JBool true)] (w ++ l1))
    as [[e | metrics] w2]; cbn [snd] in E2; subst w2.
  { exists (l1 ++ l2). rewrite app_assoc, length_app. split; [reflexivity | lia]. }
  exists (l1 ++ l2).
  split; [| rewrite length_app; lia].
  unfold lift, ret.
  destruct (get agents (py "agents") (JArray [])); [now rewrite app_assoc |].
  destruct (get agents (py "totalAgents") (JNum 0)); [now rewrite app_assoc |].
  destruct (get metrics (py "swarmStats") (JObject [])); [now rewrite app_assoc |].
  destruct (get metrics (py "metricsSummary") (JObject []));
    now rewrite app_assoc.
Qed.

(** ** Validation of [POST /tasks] *)

Lemma field_inr {A} d name default (conv : value -> option A) ok a :
  field d name default conv ok = inr a ->
  (lookup name d = None /\ default = Some a)
  \/ (exists v, lookup name d = Some v /\ conv v = Some a /\ ok a = true).
Proof.
  unfold field. destruct (lookup name d) as [v |].
  - destruct (conv v) as [a' |] eqn:C; [| discriminate].
    destruct (ok a') eqn:O; [| discriminate].
    intros [= <-]. right. now exists v.
  - destruct default; [| discriminate]. intros [= <-]. now left.
Qed.

(** X16. A body that passes validation gives a model within the
    declared bounds: the priority between 0 and 3, the timeout between
    10 and 3600 seconds, and a task type that was given in the body as
    a string. A priority or timeout that is missing is 2 or 300. *)
Theorem validated_request_is_in_bounds body request :
  validate_CreateTaskRequest rt body = inr request ->
  exists d v,
    body = JObject d
    /\ lookup (py "task_type") d = Some v
    /\ as_str rt v = Some (CreateTaskRequest.task_type request)
    /\ (0 <= CreateTaskRequest.priority request <= 3)%Z
    /\ (10 <= CreateTaskRequest.timeout request <= 3600)%Z
    /\ (lookup (py "priority") d = None ->
        CreateTaskRequest.priority request = 2%Z)
    /\ (lookup (py "timeout") d = None ->
        CreateTaskRequest.timeout request = 300%Z).
Proof.
  unfold validate_CreateTaskRequest.
  destruct body as [| | | | | | d]; try discriminate.
  destruct (field d (py "task_type") None (as_str rt) (fun _ => true))
    as [|a] eqn:F1; [discriminate |].
  destruct (field d (py "priority") (Some 2%Z) (as_int rt) _)
    as [|b] eqn:F2; [discriminate |].
  destruct (field d (py "input_data") (Some []) (as_dict rt) _)
    as [|c] eqn:F3; [discriminate |].
  destruct (field d (py "target_agent") (Some None) _ _)
    as [|d'] eqn:F4; [discriminate |].
  destruct (field d (py "timeout") (Some 300%Z) (as_int rt) _)
    as [|e] eqn:F5; [discriminate |].
  intros [= <-]. cbn [CreateTaskRequest.task_type CreateTaskRequest.priority
                      CreateTaskRequest.timeout].
  apply field_inr in F1 as [[_ [=]] | (v & L1 & C1 & _)].
  exists d, v. split; [reflexivity |]. split; [exact L1 |]. split; [exact C1 |].
  apply field_inr in F2 as [[L2 [= <-]] | (v2 & L2 & _ & O2)];
    apply field_inr in F5 as [[L5 [= <-]] | (v5 & L5 & _ & O5)];
    repeat match goal with
           | H : (_ && _) = true |- _ => apply andb_true_iff in H as [? ?]
           | H : (_ <=? _)%Z = true |- _ => apply Z.leb_le in H
           end;
    repeat split; try lia; intros; congruence.
Qed.

(** X17. A body with a string [task_type] and none of the other four
    fields passes validation, and the handler builds exactly the four
    arguments [task_type], [priority] 2, [input_data] {} and [timeout]
    300, without [target_agent]. *)
Theorem post_tasks_defaults d v task_type :
  lookup (py "task_type") d = Some v ->
  as_str rt v = Some task_type ->
  lookup (py "priority") d = None ->
  lookup (py "input_data") d = None ->
  lookup (py "target_agent") d = None ->
  lookup (py "timeout") d = None ->
  exists request,
    validate_CreateTaskRequest rt (JObject d) = inr request
    /\ create_task_args request
       = [(py "task_type", JStr task_type);
          (py "priority", JNum 2);
          (py "input_data", JObject []);
          (py "timeout", JNum 300)].
Proof.
  intros L1 C1 L2 L3 L4 L5. unfold validate_CreateTaskRequest, field.
  rewrite L1, C1, L2, L3, L4, L5. eexists. split; reflexivity.
Qed.

(** X18. [POST /tasks] answers with status 200, 422, 500 or 504. The
    status is 422 exactly when the body fails validation, and then the
    process table is untouched; otherwise the answer is that of the
    handler run on the validated model. *)
Theorem post_tasks_status body w :
  let answer := post_tasks rt os VEGAMCP_PATH body w in
  let st := fst (fst answer) in
  (st = 200%Z \/ st = 422%Z \/ st = 500%Z \/ st = 504%Z)
  /\ (st = 422%Z <-> exists errs, validate_CreateTaskRequest rt body = inl errs)
  /\ (st = 422%Z -> snd answer = w)
  /\ (forall request,
        validate_CreateTaskRequest rt body = inr request ->
        answer = (respond (fst (create_task rt os VEGAMCP_PATH request w)),
                  snd (create_task rt os VEGAMCP_PATH request w))).
Proof.
  unfold post_tasks.
  destruct (validate_CreateTaskRequest rt body) as [errs | request].
  - cbn. repeat split; try tauto; try discriminate. eauto.
  - pose proof (call_status (py "swarm_create_task") (create_task_args request) w)
      as Hs.
    unfold create_task.
    destruct (call (py "swarm_create_task") (create_task_args request) w)
      as [r w'] eqn:E. cbn [fst snd] in *.
    split; [tauto |]. split; [| split].
    + split; [| intros (? & [=])]. intros H. rewrite H in Hs.
      destruct Hs as [? | [? | ?]]; discriminate.
    + intros H. rewrite H in Hs. destruct Hs as [? | [? | ?]]; discriminate.
    + intros ? [= <-]. now rewrite E.
Qed.

(** ** What the handlers forward *)

(** X19. An optional string that is given and not empty is forwarded
    under its own name, unchanged, whatever the other fields are; this
    holds for the filters of [GET /agents] and [POST /broadcast], for
    [target_agent], [template], [domain] and [type]. The message of a
    broadcast is always forwarded. *)
Theorem nonempty_optional_is_forwarded c x :
  let given := c :: x in
  (forall status,
     lookup (py "coordinator") (list_agents_args (Some given) status)
     = Some (JStr given))
  /\ (forall coordinator,
        lookup (py "status") (list_agents_args coordinator (Some given))
        = Some (JStr given))
  /\ (forall message status,
        let args := broadcast_message_args
                      (BroadcastRequest.Build_t message (Some given) status) in
        lookup (py "coordinator") args = Some (JStr given)
        /\ lookup (py "message") args = Some (JStr message))
  /\ (forall message coordinator,
        let args := broadcast_message_args
                      (BroadcastRequest.Build_t message coordinator (Some given)) in
        lookup (py "status") args = Some (JStr given)
        /\ lookup (py "message") args = Some (JStr message))
  /\ (forall task_type priority input_data timeout,
        lookup (py "target_agent")
          (create_task_args
             (CreateTaskRequest.Build_t task_type priority input_data
                (Some given) timeout))
        = Some (JStr given))
  /\ (forall custom_workflow input priority,
        lookup (py "template")
          (execute_workflow_args
             (WorkflowRequest.Build_t (Some given) custom_workflow input priority))
        = Some (JStr given))
  /\ (forall query type limit,
        lookup (py "domain")
          (search_memory_args
             (MemorySearchRequest.Build_t query (Some given) type limit))
        = Some (JStr given))
  /\ (forall query domain limit,
        lookup (py "type")
          (search_memory_args
             (MemorySearchRequest.Build_t query domain (Some given) limit))
        = Some (JStr given)).
Proof.
  intros given.
  split; [| split; [| split; [| split; [| split; [| split; [| split]]]]]].
  - intros [[| ? ?] |]; reflexivity.
  - intros [[| ? ?] |]; reflexivity.
  - intros message [[| ? ?] |] args; split; reflexivity.
  - intros message [[| ? ?] |] args; split; reflexivity.
  - reflexivity.
  - intros [[| ? ?] |] input priority; reflexivity.
  - intros query [[| ? ?] |] limit; reflexivity.
  - intros query [[| ? ?] |] limit; reflexivity.
Qed.

(** X20. [POST /pipelines] forwards one object per step, in order, and
    each has all five members [step_id], [task_type], [input],
    [on_success] and [on_failure]: a branch that was not given is
    forwarded as [null], not left out. *)
Theorem run_pipeline_forwards_every_field request :
  exists forwarded,
    lookup (py "steps") (run_pipeline_args request) = Some (JArray forwarded)
    /\ Forall2
         (fun s v =>
            exists d,
              v = JObject d
              /\ map fst d = [py "step_id"; py "task_type"; py "input";
                              py "on_success"; py "on_failure"]
              /\ lookup (py "step_id") d = Some (JStr (PipelineStep.step_id s))
              /\ lookup (py "on_success") d
                 = Some (match PipelineStep.on_success s with
                         | Some x => JStr x
                         | None => JNull
                         end)
              /\ lookup (py "on_failure") d
                 = Some (match PipelineStep.on_failure s with
                         | Some x => JStr x
                         | None => JNull
                         end))
         (PipelineRequest.steps request) forwarded.
Proof.
  eexists. split; [reflexivity |].
  induction (PipelineRequest.steps request) as [| s steps IH]; constructor.
  - eexists. repeat split.
  - exact IH.
Qed.

(** X21. [GET /metrics] always forwards [summary] and [limit], also at
    their defaults; [agent_id] and [metric_name] are forwarded when
    given and not empty, and left out otherwise. *)
Theorem get_metrics_arguments agent_id metric_name summary limit :
  let args := get_metrics_args agent_id metric_name summary limit in
  lookup (py "summary") args = Some (JBool summary)
  /\ lookup (py "limit") args = Some (JNum limit)
  /\ lookup (py "agent_id") args
     = (if truthy_opt agent_id then option_map JStr agent_id else None)
  /\ lookup (py "metric_name") args
     = (if truthy_opt metric_name then option_map JStr metric_name else None).
Proof.
  destruct agent_id as [[| ? ?] |]; destruct metric_name as [[| ? ?] |];
    repeat split; reflexivity.
Qed.

End RouteFacts.

(** ** The reference parser raises no [TimeoutError] *)

Lemma scanstring_no_exception fuel : forall begin x e,
  Ref.scanstring fuel begin x <> Ref.PExc e.
Proof.
  induction fuel as [| fuel IH]; intros begin x e; cbn [Ref.scanstring];
    [discriminate |].
  repeat match goal with
         | |- context [match ?y with _ => _ end] => destruct y eqn:?
         end;
    try discriminate;
    match goal with
    | H : Ref.scanstring fuel _ _ = Ref.PExc _ |- _ => now apply IH in H
    end.
Qed.

Lemma match_number_exception x e :
  Ref.match_number x = Some (Ref.PExc e) -> exists cls msg, e = Exception cls msg.
Proof.
  unfold Ref.match_number.
  repeat match goal with
         | |- context [match ?y with _ => _ end] => destruct y eqn:?
         end;
    try discriminate; intros [= <-]; eauto.
Qed.

Lemma scan_exceptions fuel :
  (forall x e, Ref.scan_once fuel x = Ref.PExc e ->
               exists cls msg, e = Exception cls msg)
  /\ (forall acc x e, Ref.parse_members fuel acc x = Ref.PExc e ->
                      exists cls msg, e = Exception cls msg)
  /\ (forall acc x e, Ref.parse_elements fuel acc x = Ref.PExc e ->
                      exists cls msg, e = Exception cls msg).
Proof.
  induction fuel as [| fuel (IH1 & IH2 & IH3)].
  - repeat split; intros; simpl in *; match goal with
      H : Ref.PExc _ = Ref.PExc _ |- _ => injection H as <- end; eauto.
  - split; [| split].
    + intros x e. cbn [Ref.scan_once].
      repeat match goal with
             | |- context [match ?y with _ => _ end] => destruct y eqn:?
             end;
        try discriminate;
        try match goal with
            | H : Ref.scanstring _ _ _ = Ref.PExc _ |- _ =>
                now apply scanstring_no_exception in H
            end;
        try (now apply IH2); try (now apply IH3).
      * intros ->. eapply match_number_exception. eassumption.
    + intros acc x e. cbn [Ref.parse_members].
      repeat match goal with
             | |- context [match ?y with _ => _ end] => destruct y eqn:?
             end;
        try discriminate;
        try match goal with
            | H : Ref.scanstring _ _ _ = Ref.PExc _ |- _ =>
                now apply scanstring_no_exception in H
            end;
        try (now apply IH2);
        try (intros [= <-]; eapply IH1; eassumption).
    + intros acc x e. cbn [Ref.parse_elements].
      repeat match goal with
             | |- context [match ?y with _ => _ end] => destruct y eqn:?
             end;
        try discriminate;
        try (now apply IH3);
        try (intros [= <-]; eapply IH1; eassumption).
Qed.

Lemma reference_parser_no_timeout x : Ref.json_loads x <> Raise TimeoutError.
Proof.
  unfold Ref.json_loads. cbv zeta.
  set (bom := Raise (JSONDecodeError _)).
  set (parsed := match Ref.scan_once _ _ with Ref.POk _ _ => _ | _ => _ end).
  assert (Hbom : bom <> Raise TimeoutError) by discriminate.
  assert (Hparsed : parsed <> Raise TimeoutError).
  { subst parsed.
    destruct (Ref.scan_once (2 * length x + 2) (Ref.skip_ws x))
      as [v rest | m a | e] eqn:S.
    - destruct (Ref.skip_ws rest); discriminate.
    - discriminate.
    - destruct (proj1 (scan_exceptions _) _ _ S) as (cls & msg & ->).
      discriminate. }
  clearbody bom parsed.
  destruct x as [| c r]; [exact Hparsed |].
  destruct c as [| p]; [exact Hparsed |].
  repeat (destruct p as [p | p |]; try exact Hparsed; try exact Hbom).
Qed.

(** ** Runs of the further properties *)

(** Without [node] the call fails at once with a 500; when the spawn
    itself times out, with a 504. *)
Lemma refused_spawns_are_reported :
  (fst (call_mcp_tool Ref.runtime refusing root (py "swarm_list_agents") [] [])
   = Raise (HTTPException 500
              (JStr (py "[Errno 2] No such file or directory: 'node'")))
   /\ fst (respond
             (fst (call_mcp_tool Ref.runtime refusing root
                     (py "swarm_list_agents") [] []))) = 500%Z)
  /\ (fst (call_mcp_tool Ref.runtime stalling root (py "swarm_list_agents") [] [])
      = Raise (HTTPException 504 (JStr (py "VegaMCP request timed out")))
      /\ fst (respond
                (fst (call_mcp_tool Ref.runtime stalling root
                        (py "swarm_list_agents") [] []))) = 504%Z).
Proof.
  split.
  - apply (proj1 (proj2
      (refused_spawn_is_500_or_504 Ref.runtime refusing root
         (py "swarm_list_agents") [] []
         (cls := py "FileNotFoundError")
         (msg := py "[Errno 2] No such file or directory: 'node'")
         eq_refl))).
    vm_compute. discriminate.
  - apply (proj2 (proj2
      (refused_spawn_is_500_or_504 Ref.runtime stalling root
         (py "swarm_list_agents") [] []
         (cls := py "TimeoutError")
         (msg := py "[Errno 110] Connection timed out")
         eq_refl))).
    reflexivity.
Defined.

(** The result of the round trip came from a child that exited with
    status zero. *)
Lemma round_trip_child_exited_zero :
  exists t out err out_text response,
    child_run Ref.runtime (always (Exits quick 0 echo_reply [])) root
      (py "swarm_list_agents") [] []
    = Some (Exits t 0 out err)
    /\ timely (Exits t 0 out err) = true
    /\ decode out = Return out_text
    /\ Ref.json_loads (reply_line out_text) = Return response
    /\ extract_result Ref.runtime response
       = Return (JObject [(py "ok", JBool true)]).
Proof.
  apply (result_only_after_zero_exit Ref.runtime
           (always (Exits quick 0 echo_reply [])) root
           (py "swarm_list_agents") [] []).
  vm_compute. reflexivity.
Defined.

(** Two ways to a status of 504 on the reference runtime: a child
    that exits after 45 seconds, and a spawn that times out. *)
Lemma two_ways_to_504 :
  fst (respond (fst (run_with (Exits 45 0 echo_reply [])))) = 504%Z
  /\ fst (respond
            (fst (call_mcp_tool Ref.runtime stalling root
                    (py "swarm_list_agents") [] []))) = 504%Z.
Proof.
  split.
  - apply (proj2 (status_504_iff_timeout Ref.runtime
                    (always (Exits 45 0 echo_reply [])) root
                    (py "swarm_list_agents") [] []
                    reference_parser_no_timeout)).
    right. exists (Exits 45 0 echo_reply []).
    split; vm_compute; reflexivity.
  - apply (proj2 (status_504_iff_timeout Ref.runtime stalling root
                    (py "swarm_list_agents") [] []
                    reference_parser_no_timeout)).
    left. exists (py "[Errno 110] Connection timed out"). reflexivity.
Defined.

(** An array as reply. *)
Lemma array_reply_is_500 :
  fst (run_with (Exits quick 0 array_reply []))
  = Raise (HTTPException 500
             (JStr (py "'list' object has no attribute 'get'"))).
Proof.
  assert (R : child_run Ref.runtime (always (Exits quick 0 array_reply []))
                root (py "swarm_list_agents") [] []
              = Some (Exits quick 0 array_reply []))
    by (vm_compute; reflexivity).
  assert (D : decode array_reply = Return array_reply)
    by (vm_compute; reflexivity).
  assert (L : json_loads Ref.runtime (reply_line array_reply)
              = Return (JArray [JNum 1; JNum 2]))
    by (vm_compute; reflexivity).
  destruct (non_object_reply_is_500 _ _ _ _ _ _ R eq_refl D L
              ltac:(discriminate)) as (cls & msg & X & _ & E).
  unfold run_with. rewrite E. vm_compute in X. now injection X as _ <-.
Defined.

(** A reply with a [null] error beside a good result: the exception
    raised with it takes the phrase of its status for detail. *)
Lemma null_error_is_an_error :
  fst (run_with (Exits quick 0 null_error_reply []))
  = Raise (HTTPException 500 (JStr (py "500: Internal Server Error"))).
Proof.
  assert (R : child_run Ref.runtime (always (Exits quick 0 null_error_reply []))
                root (py "swarm_list_agents") [] []
              = Some (Exits quick 0 null_error_reply []))
    by (vm_compute; reflexivity).
  assert (D : decode null_error_reply = Return null_error_reply)
    by (vm_compute; reflexivity).
  assert (L : json_loads Ref.runtime (reply_line null_error_reply)
              = Return (JObject
                  [(py "error", JNull);
                   (py "result",
                    JObject [(py "content",
                              JArray [JObject [(py "text",
                                                JStr (dq "{'ok':true}"))]])])]))
    by (vm_compute; reflexivity).
  destruct (error_member_takes_precedence _ _ _ _ _ _ R eq_refl D L eq_refl)
    as [E _].
  unfold run_with. rewrite E. vm_compute. reflexivity.
Defined.

(** Latin-1 output. *)
Lemma latin1_output_is_500 :
  fst (run_with (Exits quick 0 latin1_reply []))
  = Raise (HTTPException 500
             (JStr (py "'utf-8' codec can't decode byte 0xe9 in position 0: unexpected end of data"))).
Proof.
  assert (R : child_run Ref.runtime (always (Exits quick 0 latin1_reply []))
                root (py "swarm_list_agents") [] []
              = Some (Exits quick 0 latin1_reply []))
    by (vm_compute; reflexivity).
  destruct (undecodable_output_is_500 _ _ _ _ _ _ R eq_refl
              (e := Exception (py "UnicodeDecodeError")
                      (py "'utf-8' codec can't decode byte 0xe9 in position 0: unexpected end of data"))
              ltac:(vm_compute; reflexivity)) as (msg & [= <-] & E).
  exact E.
Defined.

(** The same reply, at once and quietly, or after five seconds and a
    warning on the error stream. *)
Lemma warning_changes_nothing :
  let os := behaving (Exits quick 0 echo_reply [])
              (Exits 5 0 echo_reply (py "warning: deprecated")) in
  let w1 := snd (call_mcp_tool Ref.runtime os root (py "swarm_list_agents") [] []) in
  fst (call_mcp_tool Ref.runtime os root (py "swarm_list_agents") [] [])
  = fst (call_mcp_tool Ref.runtime os root (py "swarm_list_agents") [] w1).
Proof.
  intros os w1.
  apply (unused_stream_is_ignored Ref.runtime os root
           (py "swarm_list_agents") [] [] (py "swarm_list_agents") [] w1
           (t := quick) (t' := 5) (rc := 0%Z) (out := echo_reply)
           (out' := echo_reply) (err := [])
           (err' := py "warning: deprecated"));
    vm_compute; reflexivity.
Defined.

(** A blank line before the reply and line ends after it. *)
Lemma padded_reply_is_read :
  reply_line ([10; 32; 32]%N ++ echo_reply ++ [13; 10; 10]%N)
  = reply_line echo_reply.
Proof.
  apply whitespace_around_output_is_ignored; reflexivity.
Defined.

(** [GET /status] against a server with one agent and no metrics
    summary. *)
Lemma status_of_one_agent :
  fst (get_swarm_status Ref.runtime
         (behaving (Exits quick 0 agents_reply [])
            (Exits quick 0 metrics_reply [])) root [])
  = Return (JObject [(py "agents", JArray [JStr (py "a1")]);
                     (py "totalAgents", JNum 1);
                     (py "stats", JObject [(py "tasks", JNum 3)]);
                     (py "metricsSummary", JObject [])]).
Proof.
  set (os := behaving (Exits quick 0 agents_reply [])
               (Exits quick 0 metrics_reply [])).
  set (w1 := snd (call_mcp_tool Ref.runtime os root (py "swarm_list_agents") [] [])).
  set (w2 := snd (call_mcp_tool Ref.runtime os root (py "swarm_get_metrics")
                    [(py "summary", JBool true)] w1)).
  assert (H1 : call_mcp_tool Ref.runtime os root (py "swarm_list_agents") [] []
               = (Return (JObject [(py "agents", JArray [JStr (py "a1")]);
                                   (py "totalAgents", JNum 1)]), w1))
    by (vm_compute; reflexivity).
  assert (H2 : call_mcp_tool Ref.runtime os root (py "swarm_get_metrics")
                 [(py "summary", JBool true)] w1
               = (Return (JObject [(py "swarmStats",
                                    JObject [(py "tasks", JNum 3)])]), w2))
    by (vm_compute; reflexivity).
  rewrite (get_swarm_status_shape _ _ _ _ H1 H2). reflexivity.
Defined.

(** [GET /status] without [node]: one refusal, and no second try. *)
Lemma status_without_node :
  get_swarm_status Ref.runtime refusing root []
  = (Raise (HTTPException 500
              (JStr (py "[Errno 2] No such file or directory: 'node'"))), []).
Proof.
  apply (proj1 (get_swarm_status_stops_at_first_error Ref.runtime refusing
                  root [])).
  reflexivity.
Defined.

(** [GET /status] when the first tool answers with a list. *)
Lemma status_of_a_list :
  respond (fst (get_swarm_status Ref.runtime
                  (behaving (Exits quick 0 list_reply [])
                     (Exits quick 0 metrics_reply [])) root []))
  = (500%Z, JStr (py "Internal Server Error")).
Proof.
  set (os := behaving (Exits quick 0 list_reply [])
               (Exits quick 0 metrics_reply [])).
  set (w1 := snd (call_mcp_tool Ref.runtime os root (py "swarm_list_agents") [] [])).
  set (w2 := snd (call_mcp_tool Ref.runtime os root (py "swarm_get_metrics")
                    [(py "summary", JBool true)] w1)).
  assert (H1 : call_mcp_tool Ref.runtime os root (py "swarm_list_agents") [] []
               = (Return (JArray []), w1))
    by (vm_compute; reflexivity).
  assert (H2 : call_mcp_tool Ref.runtime os root (py "swarm_get_metrics")
                 [(py "summary", JBool true)] w1
               = (Return (JObject [(py "swarmStats",
                                    JObject [(py "tasks", JNum 3)])]), w2))
    by (vm_compute; reflexivity).
  apply (get_swarm_status_needs_objects _ _ _ _ H1 H2).
  intros a m [[=] _].
Defined.

(** A valid body: the model it gives is within bounds. *)
Lemma valid_task_is_in_bounds :
  exists d v,
    JObject [(py "task_type", JStr (py "research")); (py "priority", JNum 1)]
    = JObject d
    /\ lookup (py "task_type") d = Some v
    /\ as_str Ref.runtime v = Some (py "research")
    /\ (0 <= 1 <= 3)%Z
    /\ (10 <= 300 <= 3600)%Z
    /\ (lookup (py "priority") d = None -> 1%Z = 2%Z)
    /\ (lookup (py "timeout") d = None -> 300%Z = 300%Z).
Proof.
  apply (validated_request_is_in_bounds Ref.runtime
           (JObject [(py "task_type", JStr (py "research"));
                     (py "priority", JNum 1)])
           (request := CreateTaskRequest.Build_t (py "research") 1 [] None 300)).
  reflexivity.
Defined.

(** The smallest valid body. *)
Lemma task_type_alone_is_enough :
  exists request,
    validate_CreateTaskRequest Ref.runtime
      (JObject [(py "task_type", JStr (py "research"))]) = inr request
    /\ create_task_args request
       = [(py "task_type", JStr (py "research"));
          (py "priority", JNum 2);
          (py "input_data", JObject []);
          (py "timeout", JNum 300)].
Proof.
  apply (post_tasks_defaults Ref.runtime
           [(py "task_type", JStr (py "research"))]
           (v := JStr (py "research"))); reflexivity.
Defined.
